(** * Customer Analytics Platform: the two Lambda handlers

    A shallow embedding of
      - [aws/lambda/customer-analytics-api/lambda_function.py]
      - [aws/lambda/customer-analytics-processor/lambda_function.py]
    Python values are an inductive type of dynamically typed values, Python
    floats are IEEE binary64 numbers ([SpecFloat], precision 53, emax 1024),
    exceptions are an error monad threaded through a log of external calls,
    and the AWS services are a record of oracles, one per call the handlers
    make. *)

From Stdlib Require Import ZArith List String Ascii Bool Lia Permutation
  Sorting.Sorted QArith.
From Stdlib Require Import Floats.SpecFloat.
From Stdlib Require Import Numbers.DecimalString.
Import ListNotations.
Local Open Scope string_scope.
Local Open Scope Z_scope.
Set Warnings "-register-all".

(** ** Python values *)

Module Py.

(** A [Decimal] as boto3 hands numbers back: [dec_coef * 10 ^ dec_exp]. *)
Record decimal := Dec { dec_coef : Z; dec_exp : Z }.

Inductive pyval :=
| PNone
| PBool (b : bool)
| PInt (n : Z)
| PFloat (f : spec_float)
| PStr (s : string)
| PDecimal (d : decimal)
| PList (l : list pyval)
| PDict (d : list (string * pyval))
| PSet (l : list pyval).

(** Exceptions of class [Exception]; [exn_msg] is what [str(e)] gives. *)
Record exn := Exn { exn_class : string; exn_msg : string }.

Inductive result (A : Type) :=
| Ok (a : A)
| Raise (e : exn).
Arguments Ok {A} a.
Arguments Raise {A} e.

Definition rbind {A B} (r : result A) (k : A -> result B) : result B :=
  match r with
  | Ok a => k a
  | Raise e => Raise e
  end.

Definition is_ok {A} (r : result A) : bool :=
  match r with Ok _ => true | Raise _ => false end.

(** [type(v).__name__] *)
Definition type_name (v : pyval) : string :=
  match v with
  | PNone => "NoneType"
  | PBool _ => "bool"
  | PInt _ => "int"
  | PFloat _ => "float"
  | PStr _ => "str"
  | PDecimal _ => "decimal.Decimal"
  | PList _ => "list"
  | PDict _ => "dict"
  | PSet _ => "set"
  end.

Fixpoint assoc (k : string) (d : list (string * pyval)) : option pyval :=
  match d with
  | [] => None
  | (k', v) :: r => if String.eqb k k' then Some v else assoc k r
  end.

(** [v == s] for a string literal [s] *)
Definition eq_str (v : pyval) (s : string) : bool :=
  match v with
  | PStr t => String.eqb t s
  | _ => false
  end.

Fixpoint is_substring (s t : string) : bool :=
  match t with
  | EmptyString => match s with EmptyString => true | _ => false end
  | String _ t' => String.prefix s t || is_substring s t'
  end.

(** [s in v] for a string literal [s] *)
Definition contains (s : string) (v : pyval) : result bool :=
  match v with
  | PDict d => Ok (match assoc s d with Some _ => true | None => false end)
  | PList l | PSet l => Ok (existsb (fun x => eq_str x s) l)
  | PStr t => Ok (is_substring s t)
  | _ => Raise (Exn "TypeError"
                  ("argument of type '" ++ type_name v ++ "' is not iterable"))
  end.

(** [v.get(k, dflt)]: only a dict has the method *)
Definition get (v : pyval) (k : string) (dflt : pyval) : result pyval :=
  match v with
  | PDict d => Ok (match assoc k d with Some x => x | None => dflt end)
  | _ => Raise (Exn "AttributeError"
                  ("'" ++ type_name v ++ "' object has no attribute 'get'"))
  end.

(** [v[k]] for a string literal [k] *)
Definition getitem (v : pyval) (k : string) : result pyval :=
  match v with
  | PDict d => match assoc k d with
               | Some x => Ok x
               | None => Raise (Exn "KeyError" ("'" ++ k ++ "'"))
               end
  | PList _ => Raise (Exn "TypeError"
                        "list indices must be integers or slices, not str")
  | PStr _ => Raise (Exn "TypeError" "string indices must be integers")
  | _ => Raise (Exn "TypeError"
                  ("'" ++ type_name v ++ "' object is not subscriptable"))
  end.

(** [for x in v]: the elements the loop visits *)
Definition iter (v : pyval) : result (list pyval) :=
  match v with
  | PList l | PSet l => Ok l
  | PDict d => Ok (map (fun kv => PStr (fst kv)) d)
  | PStr s => Ok (map (fun c => PStr (String c EmptyString)) (list_ascii_of_string s))
  | _ => Raise (Exn "TypeError"
                  ("'" ++ type_name v ++ "' object is not iterable"))
  end.

(** ** Floats *)

Definition prec : Z := 53.
Definition emax : Z := 1024.

Definition fadd := SFadd prec emax.
Definition fmul := SFmul prec emax.
Definition fdiv := SFdiv prec emax.

(** An integer as an unrounded binary number; [fdiv] and [binary_normalize]
    round it. *)
Definition sf_of_Z (n : Z) : spec_float :=
  match n with
  | Z0 => S754_zero false
  | Zpos p => S754_finite false p 0
  | Zneg p => S754_finite true p 0
  end.

(** The double nearest to the integer [n] *)
Definition float_of_Z (n : Z) : spec_float := binary_normalize prec emax n 0 false.

(** The double nearest to [n / d], for [d > 0] *)
Definition float_of_ratio (n d : Z) : spec_float := fdiv (sf_of_Z n) (sf_of_Z d).

(** [float(Decimal)]: the nearest double *)
Definition float_of_decimal (d : decimal) : spec_float :=
  if 0 <=? dec_exp d
  then float_of_Z (dec_coef d * 10 ^ dec_exp d)
  else float_of_ratio (dec_coef d) (10 ^ (- dec_exp d)).

(** [a / b] on ints, [b <> 0] *)
Definition int_truediv (a b : Z) : spec_float := float_of_ratio a b.

Definition truthy_float (f : spec_float) : bool :=
  match f with S754_zero _ => false | _ => true end.

(** Truth value of a value in an [if] *)
Definition truthy (v : pyval) : bool :=
  match v with
  | PNone => false
  | PBool b => b
  | PInt n => negb (n =? 0)
  | PFloat f => truthy_float f
  | PStr s => negb (String.eqb s "")
  | PDecimal d => negb (dec_coef d =? 0)
  | PList l | PSet l => match l with [] => false | _ => true end
  | PDict d => match d with [] => false | _ => true end
  end.

(** Nearest integer to [n / d], ties to even, for [0 <= n] and [0 < d] *)
Definition div_half_even (n d : Z) : Z :=
  let q := n / d in
  let r := n mod d in
  match 2 * r ?= d with
  | Lt => q
  | Gt => q + 1
  | Eq => if Z.even q then q else q + 1
  end.

(** [round(x, 2)] on a float: the exact value is rounded to two decimals,
    ties to even, and the double nearest to that decimal is returned;
    infinities, nan and zeros are returned as they are. *)
Definition round2_float (x : spec_float) : spec_float :=
  match x with
  | S754_finite s m e =>
      let n := div_half_even (100 * Zpos m * 2 ^ Z.max e 0) (2 ^ Z.max (- e) 0) in
      match n with
      | Z0 => S754_zero s
      | _ => float_of_ratio (if s then - n else n) 100
      end
  | _ => x
  end.

(** A number as the handlers compute with it: an int or a float *)
Inductive num :=
| NInt (n : Z)
| NFloat (f : spec_float).

Definition pyval_of_num (x : num) : pyval :=
  match x with
  | NInt n => PInt n
  | NFloat f => PFloat f
  end.

(** [round(x, 2)]: an int is returned unchanged *)
Definition round2 (x : num) : num :=
  match x with
  | NInt n => NInt n
  | NFloat f => NFloat (round2_float f)
  end.

End Py.

(** ** The services the handlers call, and the monad they run in *)

Module Aws.
Import Py.

(** [response['Items']] and [response['Count']] of a table query *)
Record query_output := { q_items : list pyval; q_count : Z }.

(** The text [json.dumps] writes for a document *)
Inductive json_text := JsonText (doc : pyval).

(** What a handler does to the outside, in order *)
Inductive call :=
| CPrint (line : string)
| CTableQuery (table : string) (customer_id : pyval)
| CTableScan (table : string) (limit : Z)
| CLambdaInvoke (function_name invocation_type : string) (payload : json_text)
| CS3GetObject (bucket key : string)
| CS3PutObject (bucket key : string) (body : json_text) (content_type : string).

(** The environment of one invocation: process environment, clock, the
    interpreter's parser of float literals, and what each service answers.
    [s3_get_object] stands for [get_object], [read] and [decode('utf-8')]
    together: the decoded text, or the exception one of them raised. *)
Record world := {
  environ : string -> option string;
  now_isoformat : nat -> string;
  now_strftime : nat -> string;
  parse_float : string -> option spec_float;
  table_query : string -> pyval -> result query_output;
  table_scan : string -> Z -> result (list pyval);
  lambda_invoke : string -> string -> json_text -> result string;
  s3_get_object : string -> string -> result string;
  s3_put_object : string -> string -> json_text -> string -> result unit
}.

Record state := { log : list call; ticks : nat }.

Definition M (A : Type) : Type := state -> result A * state.

Definition ret {A} (a : A) : M A := fun s => (Ok a, s).

Definition bind {A B} (m : M A) (k : A -> M B) : M B :=
  fun s => match m s with
           | (Ok a, s') => k a s'
           | (Raise e, s') => (Raise e, s')
           end.

Definition lift {A} (r : result A) : M A := fun s => (r, s).

Definition emit (c : call) : M unit :=
  fun s => (Ok tt, {| log := log s ++ [c]; ticks := ticks s |}).

(** One reading of the clock: [datetime.now()] *)
Definition now : M nat :=
  fun s => (Ok (ticks s), {| log := log s; ticks := S (ticks s) |}).

(** [try: m except Exception as e: h e] *)
Definition try_except {A} (m : M A) (h : exn -> M A) : M A :=
  fun s => match m s with
           | (Ok a, s') => (Ok a, s')
           | (Raise e, s') => h e s'
           end.

Definition init : state := {| log := []; ticks := 0 |}.

End Aws.

Declare Scope py_scope.
Delimit Scope py_scope with py.
Notation "x <- c ;; k" := (Aws.bind c (fun x => k))
  (at level 61, c at next level, right associativity) : py_scope.
Notation "c ;;; k" := (Aws.bind c (fun _ => k))
  (at level 61, right associativity) : py_scope.
Notation "x <~ c ;; k" := (Py.rbind c (fun x => k))
  (at level 61, c at next level, right associativity) : py_scope.
Local Open Scope py_scope.

(** ** Builtins used by both handlers *)

Module Builtins.
Import Py Aws.

(** [float(v)] *)
Definition to_float (w : world) (v : pyval) : result spec_float :=
  match v with
  | PBool b => Ok (float_of_Z (if b then 1 else 0))
  | PInt n =>
      match float_of_Z n with
      | S754_infinity _ =>
          Raise (Exn "OverflowError" "int too large to convert to float")
      | f => Ok f
      end
  | PFloat f => Ok f
  | PDecimal d => Ok (float_of_decimal d)
  | PStr s =>
      match parse_float w s with
      | Some f => Ok f
      | None => Raise (Exn "ValueError"
                         ("could not convert string to float: '" ++ s ++ "'"))
      end
  | _ => Raise (Exn "TypeError"
                  ("float() argument must be a string or a real number, not '"
                   ++ type_name v ++ "'"))
  end.

(** A function that may raise, applied to the elements of a list in order *)
Definition map_result {A B} (f : A -> result B) : list A -> result (list B) :=
  fix go (l : list A) : result (list B) :=
    match l with
    | [] => Ok []
    | x :: r => x' <~ f x ;; r' <~ go r ;; Ok (x' :: r')
    end.

(** [json.dumps(doc, cls=DecimalEncoder)]: a [Decimal] is written as a float;
    a set is written by no encoder. *)
Fixpoint encode_decimal (v : pyval) : result pyval :=
  match v with
  | PDecimal d => Ok (PFloat (float_of_decimal d))
  | PSet _ => Raise (Exn "TypeError" "Object of type set is not JSON serializable")
  | PList l => l' <~ map_result encode_decimal l ;; Ok (PList l')
  | PDict d =>
      d' <~ map_result (fun kv => let '(k, x) := kv in
                                  x' <~ encode_decimal x ;; Ok (k, x')) d ;;
      Ok (PDict d')
  | _ => Ok v
  end.

Definition newline : ascii := ascii_of_nat 10.

(** [data.split('\n')] *)
Fixpoint split_lines (data : string) : list string :=
  match data with
  | EmptyString => [EmptyString]
  | String c rest =>
      if Ascii.eqb c newline then EmptyString :: split_lines rest
      else match split_lines rest with
           | [] => [String c EmptyString]
           | l :: ls => String c l :: ls
           end
  end.

(** [str(n)] for an int *)
Definition str_of_Z (n : Z) : string := NilZero.string_of_int (Z.to_int n).

(** [len(l)] *)
Definition len {A} (l : list A) : Z := Z.of_nat (List.length l).

End Builtins.

(** The response a handler returns: [headers] is empty where the source
    gives none. *)
Record response := {
  statusCode : Z;
  headers : list (string * string);
  body : Aws.json_text
}.

Definition json_headers : list (string * string) :=
  [("Content-Type", "application/json")].

(** [{'error': msg}] *)
Definition error_doc (msg : string) : Aws.json_text :=
  Aws.JsonText (Py.PDict [("error", Py.PStr msg)]).

(** ** customer-analytics-api/lambda_function.py *)

Module Api.
Import Py Aws Builtins.

(** [sum(1 for item in items if item.get('converted'))] *)
Fixpoint count_converted (items : list pyval) : result Z :=
  match items with
  | [] => Ok 0
  | item :: rest =>
      c <~ get item "converted" PNone ;;
      n <~ count_converted rest ;;
      Ok (if truthy c then 1 + n else n)
  end.

(** The float phase of [sum]: [acc += float(item.get('cart_value', 0))],
    item after item. *)
Fixpoint sum_cart_values (w : world) (acc : spec_float) (items : list pyval)
  : result spec_float :=
  match items with
  | [] => Ok acc
  | item :: rest =>
      v <~ get item "cart_value" (PInt 0) ;;
      f <~ to_float w v ;;
      sum_cart_values w (fadd acc f) rest
  end.

(** [sum(float(item.get('cart_value', 0)) for item in items)]: the int [0]
    of an empty sum, else the floats added to [0] from left to right. *)
Definition total_revenue_of (w : world) (items : list pyval) : result num :=
  match items with
  | [] => Ok (NInt 0)
  | _ => f <~ sum_cart_values w (S754_zero false) items ;; Ok (NFloat f)
  end.

(** [(conversions / total_sessions * 100) if total_sessions > 0 else 0] *)
Definition rate_of (conversions total_sessions : Z) : num :=
  if 0 <? total_sessions
  then NFloat (fmul (int_truediv conversions total_sessions) (float_of_Z 100))
  else NInt 0.

(** [(total_revenue / conversions) if conversions > 0 else 0] *)
Definition avg_of (total_revenue : num) (conversions : Z) : num :=
  if 0 <? conversions
  then match total_revenue with
       | NFloat f => NFloat (fdiv f (float_of_Z conversions))
       | NInt t => NFloat (int_truediv t conversions)
       end
  else NInt 0.

(** The five computed fields of the [metrics] dict, lines 56-66, without
    the timestamp. *)
Definition aggregate (w : world) (items : list pyval)
  : result (list (string * pyval)) :=
  let total_sessions := len items in
  conversions <~ count_converted items ;;
  total_revenue <~ total_revenue_of w items ;;
  Ok [("total_sessions", PInt total_sessions);
      ("conversions", PInt conversions);
      ("conversion_rate", pyval_of_num (round2 (rate_of conversions total_sessions)));
      ("total_revenue", pyval_of_num (round2 total_revenue));
      ("avg_cart_value", pyval_of_num (round2 (avg_of total_revenue conversions)))].

(** [dynamodb.Table(name)]: the resource refuses an identifier that is
    [None]. *)
Definition dynamodb_Table (name : option string) : M string :=
  match name with
  | Some n => ret n
  | None => lift (Raise (Exn "ValueError" "Required parameter name not set"))
  end.

Definition handle_customer (w : world) (table : string) (event : pyval) : M response :=
  qsp <- lift (get event "queryStringParameters" (PDict [])) ;;
  let params := if truthy qsp then qsp else PDict [] in
  customer_id <- lift (get params "customer_id" PNone) ;;
  if negb (truthy customer_id) then
    ret {| statusCode := 400; headers := [];
           body := error_doc "customer_id parameter required" |}
  else
    emit (CTableQuery table customer_id) ;;;
    resp <- lift (table_query w table customer_id) ;;
    doc <- lift (encode_decimal
                   (PDict [("customer_id", customer_id);
                           ("sessions", PList (q_items resp));
                           ("total_sessions", PInt (q_count resp))])) ;;
    ret {| statusCode := 200; headers := json_headers; body := JsonText doc |}.

Definition handle_metrics (w : world) (table : string) : M response :=
  emit (CTableScan table 100) ;;;
  items <- lift (table_scan w table 100) ;;
  fields <- lift (aggregate w items) ;;
  t <- now ;;
  ret {| statusCode := 200; headers := json_headers;
         body := JsonText (PDict (("timestamp", PStr (now_isoformat w t)) :: fields)) |}.

Definition handle_trigger (w : world) : M response :=
  let payload := JsonText (PDict [("action", PStr "aggregate")]) in
  emit (CLambdaInvoke "customer-analytics-processor" "Event" payload) ;;;
  request_id <- lift (lambda_invoke w "customer-analytics-processor" "Event" payload) ;;
  ret {| statusCode := 202; headers := [];
         body := JsonText (PDict [("message", PStr "Processing triggered");
                                  ("requestId", PStr request_id)]) |}.

(** The body of the [try] *)
Definition handler_try (w : world) (event : pyval) : M response :=
  http_method <- lift (get event "httpMethod" (PStr "GET")) ;;
  path <- lift (get event "path" (PStr "/")) ;;
  table <- dynamodb_Table (environ w "DYNAMODB_TABLE") ;;
  if eq_str path "/health" then
    t <- now ;;
    ret {| statusCode := 200; headers := json_headers;
           body := JsonText (PDict [("status", PStr "healthy");
                                    ("timestamp", PStr (now_isoformat w t))]) |}
  else if eq_str path "/customer" && eq_str http_method "GET" then
    handle_customer w table event
  else if eq_str path "/metrics" && eq_str http_method "GET" then
    handle_metrics w table
  else if eq_str path "/trigger-processing" && eq_str http_method "POST" then
    handle_trigger w
  else
    ret {| statusCode := 404; headers := []; body := error_doc "Endpoint not found" |}.

(** The [except Exception as e] clause, the same in both handlers *)
Definition handler_except (e : exn) : M response :=
  emit (CPrint ("ERROR: " ++ exn_msg e)) ;;;
  ret {| statusCode := 500; headers := []; body := error_doc (exn_msg e) |}.

Definition lambda_handler (w : world) (event : pyval) : M response :=
  try_except (handler_try w event) handler_except.

End Api.

(** ** customer-analytics-processor/lambda_function.py *)

Module Processor.
Import Py Aws Builtins.

(** [s3.get_object(Bucket=bucket, Key=key)] and the read of its body; the
    client refuses arguments that are not strings. *)
Definition s3_get (w : world) (bucket key : pyval) : M (string * string) :=
  match bucket, key with
  | PStr b, PStr k =>
      emit (CS3GetObject b k) ;;;
      data <- lift (s3_get_object w b k) ;;
      ret (k, data)
  | _, _ => lift (Raise (Exn "ParamValidationError" "Parameter validation failed"))
  end.

(** [s3.put_object(Bucket=bucket_name, ...)]: [bucket_name] is [None] when
    the variable is not set, which the client refuses. *)
Definition s3_put (w : world) (bucket_name : option string) (key : string)
  (text : json_text) : M unit :=
  match bucket_name with
  | Some b =>
      emit (CS3PutObject b key text "application/json") ;;;
      lift (s3_put_object w b key text "application/json")
  | None => lift (Raise (Exn "ParamValidationError" "Parameter validation failed"))
  end.

(** [len(lines) - 1] of [lines = data.split('\n')] *)
Definition record_count_of (data : string) : Z := len (split_lines data) - 1.

(** The loop of lines 21-39: the first record holding ['s3'] is processed
    and ends the handler; [None] when the loop runs to its end. *)
Fixpoint process_records (w : world) (records : list pyval) : M (option response) :=
  match records with
  | [] => ret None
  | record :: rest =>
      has_s3 <- lift (contains "s3" record) ;;
      if (has_s3 : bool) then
        s3rec <- lift (getitem record "s3") ;;
        bucket_rec <- lift (getitem s3rec "bucket") ;;
        bucket <- lift (getitem bucket_rec "name") ;;
        s3rec' <- lift (getitem record "s3") ;;
        object_rec <- lift (getitem s3rec' "object") ;;
        key <- lift (getitem object_rec "key") ;;
        kd <- s3_get w bucket key ;;
        let '(key, data) := kd in
        let record_count := record_count_of data in
        emit (CPrint ("Processed " ++ key ++ ": " ++ str_of_Z record_count ++ " records")) ;;;
        ret (Some {| statusCode := 200; headers := [];
                     body := JsonText (PDict [("message",
                       PStr ("Processed " ++ str_of_Z record_count
                             ++ " records from " ++ key))]) |})
      else process_records w rest
  end.

(** [sum(1 for item in items if item.get('converted'))] *)
Fixpoint count_converted (items : list pyval) : result Z :=
  match items with
  | [] => Ok 0
  | item :: rest =>
      c <~ get item "converted" PNone ;;
      n <~ count_converted rest ;;
      Ok (if truthy c then 1 + n else n)
  end.

(** [(total_conversions / total_sessions * 100) if total_sessions > 0 else 0] *)
Definition rate_of (total_conversions total_sessions : Z) : num :=
  if 0 <? total_sessions
  then NFloat (fmul (int_truediv total_conversions total_sessions) (float_of_Z 100))
  else NInt 0.

(** The computed fields of the [metrics] dict, lines 48-56, without the
    timestamp. *)
Definition aggregate (items : list pyval) : result (list (string * pyval)) :=
  let total_sessions := len items in
  total_conversions <~ count_converted items ;;
  Ok [("total_sessions", PInt total_sessions);
      ("total_conversions", PInt total_conversions);
      ("conversion_rate", pyval_of_num (rate_of total_conversions total_sessions))].

(** Lines 44-68. [metrics] holds a str, two ints and an int or a float, so
    [json.dumps] never calls [default]. *)
Definition handle_aggregate (w : world) (bucket_name table_name : option string)
  : M response :=
  table <- Api.dynamodb_Table table_name ;;
  emit (CTableScan table 100) ;;;
  items <- lift (table_scan w table 100) ;;
  fields <- lift (aggregate items) ;;
  t <- now ;;
  let metrics := PDict (("timestamp", PStr (now_isoformat w t)) :: fields) in
  t' <- now ;;
  s3_put w bucket_name ("metrics/" ++ now_strftime w t' ++ "_metrics.json")
    (JsonText metrics) ;;;
  ret {| statusCode := 200; headers := []; body := JsonText metrics |}.

Definition ready : response :=
  {| statusCode := 200; headers := [];
     body := JsonText (PDict [("message", PStr "Data processor ready")]) |}.

(** Lines 42-73, after the loop over the records *)
Definition handle_action (w : world) (bucket_name table_name : option string)
  (event : pyval) : M response :=
  has_action <- lift (contains "action" event) ;;
  if (has_action : bool) then
    action <- lift (getitem event "action") ;;
    if eq_str action "aggregate"
    then handle_aggregate w bucket_name table_name
    else ret ready
  else ret ready.

(** The body of the [try] *)
Definition handler_try (w : world) (event : pyval) : M response :=
  let bucket_name := environ w "S3_BUCKET" in
  let table_name := environ w "DYNAMODB_TABLE" in
  has_records <- lift (contains "Records" event) ;;
  done <- (if (has_records : bool) then
             records <- lift (getitem event "Records") ;;
             records <- lift (iter records) ;;
             process_records w records
           else ret None) ;;
  match done with
  | Some resp => ret resp
  | None => handle_action w bucket_name table_name event
  end.

Definition lambda_handler (w : world) (event : pyval) : M response :=
  try_except (handler_try w event) Api.handler_except.

End Processor.

(** ** A table for the examples

    The handlers reach the table through [table.query] and [table.scan],
    which are oracles of the [world]: the theorems hold for every answer.
    A world of an example needs a table that answers.  The one below has the
    keys [scripts/aws_dynamodb_setup.py] creates, partition key [customer_id]
    (a string) and sort key [session_timestamp] (a number), and answers a
    query with one page: the first items of the partition in ascending order
    of the sort key.  The service cuts a page at 1 MB and tells in
    [LastEvaluatedKey] where the next one starts; here a page is cut after a
    number of items. *)

Module Store.
Import Py Aws Builtins.

Definition table := list pyval.

(** The value of a decimal *)
Definition dec_value (a : decimal) : Q :=
  (inject_Z (dec_coef a) * Qpower (10 # 1) (dec_exp a))%Q.

(** Order on decimals by value *)
Definition dec_leb (a b : decimal) : bool := Qle_bool (dec_value a) (dec_value b).

Definition pk_is (cid : string) (item : pyval) : bool :=
  match item with
  | PDict d => match assoc "customer_id" d with
               | Some v => eq_str v cid
               | None => false
               end
  | _ => false
  end.

(** The sort key of an item; every item of the table has one. *)
Definition sk_of (item : pyval) : decimal :=
  match item with
  | PDict d => match assoc "session_timestamp" d with
               | Some (PDecimal t) => t
               | Some (PInt n) => Dec n 0
               | _ => Dec 0 0
               end
  | _ => Dec 0 0
  end.

Definition sk_leb (a b : pyval) : bool := dec_leb (sk_of a) (sk_of b).

Definition sk_le (a b : pyval) : Prop := sk_leb a b = true.

Fixpoint insert_by_sk (x : pyval) (l : list pyval) : list pyval :=
  match l with
  | [] => [x]
  | y :: r => if sk_leb x y then x :: l else y :: insert_by_sk x r
  end.

Fixpoint sort_by_sk (l : list pyval) : list pyval :=
  match l with
  | [] => []
  | x :: r => insert_by_sk x (sort_by_sk r)
  end.

Definition partition_of (cid : string) (t : table) : list pyval :=
  filter (pk_is cid) t.

(** One answer of [table.query] for the key condition [customer_id = :cid]:
    the first page, of at most [page] items *)
Definition first_page (page : nat) (t : table) (cid : pyval) : result query_output :=
  match cid with
  | PStr c =>
      let items := firstn page (sort_by_sk (partition_of c t)) in
      Ok {| q_items := items; q_count := len items |}
  | _ => Raise (Exn "ClientError" "One or more parameter values were invalid")
  end.

(** The answer of [table.scan(Limit=n)]: at most [n] items *)
Definition scan (t : table) (limit : Z) : result (list pyval) :=
  Ok (firstn (Z.to_nat limit) t).

End Store.

(** ** The aggregate as the specification words it

    Currency sums in exact decimal arithmetic, rounded to two decimals at
    the output. *)

Module DecimalSpec.
Import Py.

Definition dec_add (a b : decimal) : decimal :=
  let e := Z.min (dec_exp a) (dec_exp b) in
  Dec (dec_coef a * 10 ^ (dec_exp a - e) + dec_coef b * 10 ^ (dec_exp b - e)) e.

Definition dec_sum (ds : list decimal) : decimal := fold_left dec_add ds (Dec 0 0).

(** Two decimals, ties to even: the context rounding of [decimal] *)
Definition dec_round2 (a : decimal) : decimal :=
  if dec_exp a <? -2
  then let q := div_half_even (Z.abs (dec_coef a)) (10 ^ (-2 - dec_exp a)) in
       Dec (Z.sgn (dec_coef a) * q) (-2)
  else Dec (dec_coef a * 10 ^ (dec_exp a + 2)) (-2).

(** [total_revenue] of a batch with the cart values [ds] *)
Definition total_revenue (ds : list decimal) : decimal := dec_round2 (dec_sum ds).

End DecimalSpec.

(** ** Sample data *)

Module Sample.
Import Py Aws Builtins.

Definition lf : string := String newline EmptyString.

(** A session record with the three attributes the handlers read *)
Definition session (cid : string) (ts : Z) (converted : bool) (cart : decimal) : pyval :=
  PDict [("customer_id", PStr cid);
         ("session_timestamp", PDecimal (Dec ts 0));
         ("converted", PBool converted);
         ("cart_value", PDecimal cart)].

(** A world over a table [t] small enough for every partition to fit the
    first page; [put] is what [s3.put_object] answers. *)
Definition world_of (t : Store.table) (put : result unit) : world :=
  {| environ := fun k =>
       if String.eqb k "DYNAMODB_TABLE" then Some "customer-behavior"
       else if String.eqb k "S3_BUCKET" then Some "customer-analytics-data"
       else None;
     now_isoformat := fun _ => "2024-01-15T10:30:00.000000";
     now_strftime := fun _ => "20240115_103000";
     parse_float := fun _ => None;
     table_query := fun _ cid => Store.first_page (List.length t) t cid;
     table_scan := fun _ limit => Store.scan t limit;
     lambda_invoke := fun _ _ _ => Ok "c6af9ac6-7b61-11e6-9a41-93e8deadbeef";
     s3_get_object := fun _ _ =>
       Ok ("customer_id,session_timestamp" ++ lf ++ "CUST0001,1700000000"
           ++ lf ++ "CUST0002,1700000060");
     s3_put_object := fun _ _ _ _ => put |}.

(** Three sessions, one converted with a cart of 150.00 *)
Definition three_sessions : list pyval :=
  [session "CUST0001" 1700000000 true (Dec 15000 (-2));
   session "CUST0002" 1700000060 false (Dec 0 0);
   session "CUST0001" 1699990000 false (Dec 0 0)].

(** Carts of 33.333, 33.333 and 33.334, all converted *)
Definition thirds : list pyval :=
  [session "CUST0001" 1 true (Dec 33333 (-3));
   session "CUST0002" 2 true (Dec 33333 (-3));
   session "CUST0003" 3 true (Dec 33334 (-3))].

(** Carts of 0.01, 0.01 and 0.07, the first two converted, and the same
    records with the last one first *)
Definition cents : list pyval :=
  [session "CUST0001" 1 true (Dec 1 (-2));
   session "CUST0002" 2 true (Dec 1 (-2));
   session "CUST0003" 3 false (Dec 7 (-2))].

Definition cents_reordered : list pyval :=
  [session "CUST0003" 3 false (Dec 7 (-2));
   session "CUST0001" 1 true (Dec 1 (-2));
   session "CUST0002" 2 true (Dec 1 (-2))].

(** Carts of 0.005 and 0.010, both converted *)
Definition half_cents : list pyval :=
  [session "CUST0001" 1 true (Dec 5 (-3));
   session "CUST0002" 2 true (Dec 10 (-3))].

Definition aggregate_event : pyval := PDict [("action", PStr "aggregate")].

Definition metrics_event : pyval :=
  PDict [("httpMethod", PStr "GET"); ("path", PStr "/metrics")].

Definition customer_event (cid : string) : pyval :=
  PDict [("httpMethod", PStr "GET"); ("path", PStr "/customer");
         ("queryStringParameters", PDict [("customer_id", PStr cid)])].

Definition s3_event (bucket key : string) : pyval :=
  PDict [("Records",
          PList [PDict [("eventSource", PStr "aws:s3");
                        ("s3", PDict [("bucket", PDict [("name", PStr bucket)]);
                                      ("object", PDict [("key", PStr key)])])]])].

Definition access_denied : exn :=
  Exn "ClientError"
      "An error occurred (AccessDenied) when calling the PutObject operation: Access Denied".

(** Three sessions in the table, and [put_object] granted *)
Definition granted_world : world := world_of three_sessions (Ok tt).


(** Three sessions in the table, and [put_object] denied *)
Definition denied_world : world := world_of three_sessions (Raise access_denied).

End Sample.

(** ** Reading results *)

Module Obs.
Import Py Aws Builtins.

(** A field of a computed snapshot; [None] when the computation raised. *)
Definition field (k : string) (r : result (list (string * pyval))) : option pyval :=
  match r with
  | Ok fs => assoc k fs
  | Raise _ => None
  end.

(** The response of a run, when the handler returned one *)
Definition returned (r : result response * state) : option response :=
  match fst r with
  | Ok resp => Some resp
  | Raise _ => None
  end.

(** A member of the JSON object in the body of the response of a run *)
Definition body_field (k : string) (r : result response * state) : option pyval :=
  match returned r with
  | Some {| body := JsonText (PDict d) |} => assoc k d
  | _ => None
  end.

(** A snapshot without its generation timestamp *)
Definition without_timestamp (r : result response * state) : option (list (string * pyval)) :=
  match returned r with
  | Some {| body := JsonText (PDict d) |} =>
      Some (filter (fun kv => negb (String.eqb (fst kv) "timestamp")) d)
  | _ => None
  end.

Definition is_dict (v : pyval) : bool :=
  match v with PDict _ => true | _ => false end.

(** The truth value of [item.get('converted')] on a dict *)
Definition converted_flag (item : pyval) : bool :=
  match item with
  | PDict d => match assoc "converted" d with Some c => truthy c | None => false end
  | _ => false
  end.

(** Number of items whose [converted] is truthy *)
Fixpoint tally (items : list pyval) : Z :=
  match items with
  | [] => 0
  | item :: rest => if converted_flag item then 1 + tally rest else tally rest
  end.

(** Whether [float(item.get('cart_value', 0))] returns *)
Definition cart_value_ok (w : world) (item : pyval) : bool :=
  is_ok (v <~ get item "cart_value" (PInt 0) ;; to_float w v).

(** The cart values of a batch are the decimals [ds], item by item. *)
Definition cart_values (items : list pyval) (ds : list decimal) : Prop :=
  Forall2 (fun item d => get item "cart_value" (PInt 0) = Ok (PDecimal d)) items ds.

(** The bucket and key an S3 notification record names *)
Definition s3_target (record : pyval) : option (string * string) :=
  match record with
  | PDict r =>
      match assoc "s3" r with
      | Some (PDict s) =>
          match assoc "bucket" s, assoc "object" s with
          | Some (PDict b), Some (PDict o) =>
              match assoc "name" b, assoc "key" o with
              | Some (PStr bucket), Some (PStr key) => Some (bucket, key)
              | _, _ => None
              end
          | _, _ => None
          end
      | _ => None
      end
  | _ => None
  end.

(** ['s3' in record] is [False] *)
Definition lacks_s3 (record : pyval) : bool :=
  match contains "s3" record with
  | Ok false => true
  | _ => false
  end.

(** The event has no ['Records'], or a sequence of records without ['s3'] *)
Definition no_s3_record (d : list (string * pyval)) : bool :=
  match assoc "Records" d with
  | None => true
  | Some rs => match iter rs with
               | Ok l => forallb lacks_s3 l
               | Raise _ => false
               end
  end.

(** The event has no ['action'], or one that is not ["aggregate"] *)
Definition not_aggregate (d : list (string * pyval)) : bool :=
  match assoc "action" d with
  | None => true
  | Some a => negb (eq_str a "aggregate")
  end.

(** The key and the document of the snapshot the processor publishes:
    the clock is read a first time for the timestamp and a second time for
    the key. *)
Definition metrics_key (w : world) : string :=
  "metrics/" ++ now_strftime w 1%nat ++ "_metrics.json".

Definition metrics_doc (w : world) (fields : list (string * pyval)) : json_text :=
  JsonText (PDict (("timestamp", PStr (now_isoformat w 0%nat)) :: fields)).

(** A direct-action trigger: no ['Records'], and ['action'] is ["aggregate"]. *)
Definition aggregate_trigger (d : list (string * pyval)) : bool :=
  match assoc "Records" d, assoc "action" d with
  | None, Some a => eq_str a "aggregate"
  | _, _ => false
  end.

(** The statuses of the API *)
Definition api_statuses : list Z := [200; 202; 400; 404; 500].

(** Number of newline characters of a text *)
Fixpoint count_newlines (data : string) : Z :=
  match data with
  | EmptyString => 0
  | String c rest => (if Ascii.eqb c newline then 1 else 0) + count_newlines rest
  end.

End Obs.

(** ** Shapes of events, documents and logs *)

Module Shape.
Import Py Aws Builtins.

(** The four routes of the API, as the chain of [if] / [elif] tests them *)
Definition known_route (path http_method : pyval) : bool :=
  eq_str path "/health"
  || (eq_str path "/customer" && eq_str http_method "GET")
  || (eq_str path "/metrics" && eq_str http_method "GET")
  || (eq_str path "/trigger-processing" && eq_str http_method "POST").

(** [event.get('httpMethod', 'GET')] and [event.get('path', '/')] on a dict *)
Definition method_of (d : list (string * pyval)) : pyval :=
  match assoc "httpMethod" d with Some m => m | None => PStr "GET" end.

Definition path_of (d : list (string * pyval)) : pyval :=
  match assoc "path" d with Some p => p | None => PStr "/" end.

(** The request carries no usable [customer_id]: no query parameters, or
    falsy ones, or a dict of parameters in which [customer_id] is absent or
    falsy *)
Definition lacks_customer_id (d : list (string * pyval)) : bool :=
  match assoc "queryStringParameters" d with
  | None => true
  | Some q =>
      if truthy q
      then match q with
           | PDict params => match assoc "customer_id" params with
                             | Some c => negb (truthy c)
                             | None => true
                             end
           | _ => false
           end
      else true
  end.

(** The [customer_id] of a request that carries one *)
Definition customer_id_of (d : list (string * pyval)) : option pyval :=
  match assoc "queryStringParameters" d with
  | Some (PDict params) =>
      match assoc "customer_id" params with
      | Some c => if truthy c then Some c else None
      | None => None
      end
  | _ => None
  end.

(** The payload the API sends to the processor *)
Definition trigger_payload : list (string * pyval) := [("action", PStr "aggregate")].

(** A set occurs somewhere in a value *)
Fixpoint has_set (v : pyval) : bool :=
  match v with
  | PSet _ => true
  | PList l => existsb has_set l
  | PDict d => existsb (fun kv => has_set (snd kv)) d
  | _ => false
  end.

(** A value [json.dumps] writes with its own encoder: no [Decimal] and no
    set anywhere *)
Fixpoint json_native (v : pyval) : bool :=
  match v with
  | PDecimal _ | PSet _ => false
  | PList l => forallb json_native l
  | PDict d => forallb (fun kv => json_native (snd kv)) d
  | _ => true
  end.

Definition set_not_serializable : exn :=
  Exn "TypeError" "Object of type set is not JSON serializable".

Definition is_print (c : call) : bool :=
  match c with CPrint _ => true | _ => false end.

(** A call to S3 *)
Definition is_s3_call (c : call) : bool :=
  match c with
  | CS3GetObject _ _ | CS3PutObject _ _ _ _ => true
  | _ => false
  end.

(** A call that writes outside the handler: the only one is [put_object] *)
Definition is_write (c : call) : bool :=
  match c with CS3PutObject _ _ _ _ => true | _ => false end.

(** The calls the API makes *)
Definition api_call (c : call) : bool :=
  match c with
  | CPrint _ | CTableQuery _ _ | CTableScan _ _ | CLambdaInvoke _ _ _ => true
  | _ => false
  end.

(** The calls the processor makes *)
Definition processor_call (c : call) : bool :=
  match c with
  | CPrint _ | CTableScan _ _ | CS3GetObject _ _ | CS3PutObject _ _ _ _ => true
  | _ => false
  end.

(** Number of calls to a service in a log *)
Definition service_calls (l : list call) : nat :=
  List.length (filter (fun c => negb (is_print c)) l).

(** The log of a step of the API: what was there, then at most one call
    to a service. *)
Definition one_api_call (s s' : state) : Prop :=
  log s' = log s
  \/ exists c, log s' = (log s ++ [c])%list /\ api_call c = true /\ is_print c = false.

(** What the loop over the records may add to the log, for each way it
    ends: nothing when no record is processed, the read and the print when one
    is, and at most the read when it raises. *)
Definition records_added (r : result (option response)) (added : list call) : Prop :=
  match r with
  | Ok None => added = []
  | Ok (Some resp) =>
      statusCode resp = 200
      /\ exists bucket key line, added = [CS3GetObject bucket key; CPrint line]
  | Raise _ => added = [] \/ exists bucket key, added = [CS3GetObject bucket key]
  end.

(** What the part after the loop may add to the log: nothing unless the
    action is ["aggregate"], and then the scan, followed by the write when the
    snapshot was computed and a bucket is configured. *)
Definition action_added (aggregate : bool) (r : result response) (added : list call)
  : Prop :=
  match r with
  | Ok resp =>
      statusCode resp = 200
      /\ (added = []
          \/ (aggregate = true
              /\ exists table bucket key doc,
                   added = [CTableScan table 100;
                            CS3PutObject bucket key doc "application/json"]
                   /\ body resp = doc))
  | Raise _ =>
      added = []
      \/ (aggregate = true
          /\ exists table,
               added = [CTableScan table 100]
               \/ exists bucket key doc,
                    added = [CTableScan table 100;
                             CS3PutObject bucket key doc "application/json"])
  end.

(** The loop ended the handler: with the response of a processed record,
    or with the exception of the read. *)
Definition records_ended (r : result response) (added : list call) : Prop :=
  match r with
  | Ok resp => records_added (Ok (Some resp)) added
  | Raise _ => exists bucket key, added = [CS3GetObject bucket key]
  end.

(** [event['action'] == 'aggregate'] is reached and true *)
Definition asks_aggregate (event : pyval) : bool :=
  match contains "action" event, getitem event "action" with
  | Ok true, Ok a => eq_str a "aggregate"
  | _, _ => false
  end.

(** The response of the [except] clause *)
Definition error_response (e : exn) : response :=
  {| statusCode := 500; headers := []; body := error_doc (exn_msg e) |}.

(** Number of lines of a text: each line break ends a line, and what
    follows the last line break is a line when it is not empty. *)
Fixpoint line_count_from (in_line : bool) (data : string) : Z :=
  match data with
  | EmptyString => if in_line then 1 else 0
  | String c rest =>
      if Ascii.eqb c newline then 1 + line_count_from false rest
      else line_count_from true rest
  end.

Definition line_count (data : string) : Z := line_count_from false data.

(** A world in which every object of S3 holds [data] *)
Definition object_world (data : string) : world :=
  {| environ := environ (Sample.world_of [] (Ok tt));
     now_isoformat := now_isoformat (Sample.world_of [] (Ok tt));
     now_strftime := now_strftime (Sample.world_of [] (Ok tt));
     parse_float := parse_float (Sample.world_of [] (Ok tt));
     table_query := table_query (Sample.world_of [] (Ok tt));
     table_scan := table_scan (Sample.world_of [] (Ok tt));
     lambda_invoke := lambda_invoke (Sample.world_of [] (Ok tt));
     s3_get_object := fun _ _ => Ok data;
     s3_put_object := s3_put_object (Sample.world_of [] (Ok tt)) |}.

(** A header and two rows, each ended by a line break, as [to_csv] writes
    them *)
Definition csv_of_two_rows : string :=
  "customer_id,session_timestamp" ++ Sample.lf ++ "CUST0001,1700000000" ++ Sample.lf
  ++ "CUST0002,1700000060" ++ Sample.lf.

(** A world in which every service raises [e] *)
Definition failing_world (e : exn) : world :=
  {| environ := fun k =>
       if String.eqb k "DYNAMODB_TABLE" then Some "customer-behavior"
       else if String.eqb k "S3_BUCKET" then Some "customer-analytics-data"
       else None;
     now_isoformat := fun _ => "2024-01-15T10:30:00.000000";
     now_strftime := fun _ => "20240115_103000";
     parse_float := fun _ => None;
     table_query := fun _ _ => Raise e;
     table_scan := fun _ _ => Raise e;
     lambda_invoke := fun _ _ _ => Raise e;
     s3_get_object := fun _ _ => Raise e;
     s3_put_object := fun _ _ _ _ => Raise e |}.

Definition throttled : exn :=
  Exn "ClientError"
      "An error occurred (ProvisionedThroughputExceededException) when calling the Scan operation".

(** A session whose [cart_value] is null *)
Definition null_cart : pyval :=
  PDict [("customer_id", PStr "CUST0007"); ("converted", PBool true);
         ("cart_value", PNone)].

(** A session with a string set attribute *)
Definition tagged : pyval :=
  PDict [("customer_id", PStr "CUST0008");
         ("session_timestamp", PDecimal (Dec 1700000300 0));
         ("actions", PSet [PStr "browse"; PStr "search"])].

End Shape.

(** * Properties *)

Section Monad_facts.
Import Py Aws.

Lemma bind_lift_ok {A B} (r : result A) (a : A) (k : A -> M B) (s : state) :
  r = Ok a -> bind (lift r) k s = k a s.
Proof. intros ->. reflexivity. Qed.

Lemma bind_lift_raise {A B} (r : result A) (e : exn) (k : A -> M B) (s : state) :
  r = Raise e -> bind (lift r) k s = (Raise e, s).
Proof. intros ->. reflexivity. Qed.

Lemma rbind_ok_inv {A B} (r : result A) (k : A -> result B) (b : B) :
  rbind r k = Ok b -> exists a, r = Ok a /\ k a = Ok b.
Proof. destruct r as [a|e]; simpl; [eauto | discriminate]. Qed.

End Monad_facts.

(** ** Counting sessions and conversions *)

Module CountFacts.
Import Py Aws Builtins Obs.


Lemma len_cons {A} (x : A) (xs : list A) : len (x :: xs) = len xs + 1.
Proof. unfold len. simpl List.length. lia. Qed.

Lemma len_perm {A} (xs ys : list A) : Permutation xs ys -> len xs = len ys.
Proof. intros H. unfold len. now rewrite (Permutation_length H). Qed.

Lemma api_count_dicts (items : list pyval) :
  forallb is_dict items = true -> Api.count_converted items = Ok (tally items).
Proof.
  induction items as [|item rest IH]; simpl; [reflexivity|].
  intros H. apply andb_prop in H as [Hd Hr].
  destruct item; try discriminate. simpl.
  rewrite (IH Hr). simpl.
  destruct (assoc "converted" d); reflexivity.
Qed.

Lemma api_count_ok (items : list pyval) :
  is_ok (Api.count_converted items) = forallb is_dict items.
Proof.
  induction items as [|item rest IH]; simpl; [reflexivity|].
  destruct item; simpl; try reflexivity.
  rewrite <- IH. destruct (Api.count_converted rest); reflexivity.
Qed.

(** Both handlers count conversions with the same expression. *)
Lemma count_converted_same (items : list pyval) :
  Processor.count_converted items = Api.count_converted items.
Proof.
  induction items as [|item rest IH]; simpl; [reflexivity|].
  now rewrite IH.
Qed.

Lemma api_count_inv (items : list pyval) (c : Z) :
  Api.count_converted items = Ok c ->
  forallb is_dict items = true /\ c = tally items.
Proof.
  intros H.
  assert (Hd : forallb is_dict items = true).
  { rewrite <- api_count_ok, H. reflexivity. }
  split; [exact Hd|]. rewrite (api_count_dicts _ Hd) in H. congruence.
Qed.

Lemma tally_perm (xs ys : list pyval) : Permutation xs ys -> tally xs = tally ys.
Proof.
  induction 1; simpl.
  - reflexivity.
  - now rewrite IHPermutation.
  - destruct (converted_flag x), (converted_flag y); reflexivity.
  - congruence.
Qed.

Lemma forallb_perm {A} (p : A -> bool) (xs ys : list A) :
  Permutation xs ys -> forallb p xs = forallb p ys.
Proof.
  induction 1; simpl.
  - reflexivity.
  - now rewrite IHPermutation.
  - destruct (p x), (p y); reflexivity.
  - congruence.
Qed.

Lemma tally_bounds (items : list pyval) : 0 <= tally items <= len items.
Proof.
  induction items as [|item rest IH]; cbn [tally].
  - unfold len. simpl. lia.
  - rewrite len_cons. destruct (converted_flag item); lia.
Qed.

Lemma tally_app (xs ys : list pyval) : tally (xs ++ ys) = tally xs + tally ys.
Proof.
  induction xs as [|x xs IH]; cbn [tally app]; [reflexivity|].
  rewrite IH. destruct (converted_flag x); lia.
Qed.


(** The float sum returns exactly when every cart value converts. *)
Lemma sum_cart_values_ok (w : world) (items : list pyval) (acc : spec_float) :
  is_ok (Api.sum_cart_values w acc items) = forallb (cart_value_ok w) items.
Proof.
  revert acc. induction items as [|item rest IH]; intros acc; simpl; [reflexivity|].
  unfold cart_value_ok at 1.
  destruct (get item "cart_value" (PInt 0)) as [v|e]; simpl; [|reflexivity].
  destruct (to_float w v) as [f|e]; simpl; [|reflexivity].
  apply IH.
Qed.

Lemma total_revenue_ok (w : world) (items : list pyval) :
  is_ok (Api.total_revenue_of w items) = forallb (cart_value_ok w) items.
Proof.
  destruct items as [|item rest]; [reflexivity|].
  unfold Api.total_revenue_of.
  rewrite <- (sum_cart_values_ok w (item :: rest) (S754_zero false)).
  destruct (Api.sum_cart_values w (S754_zero false) (item :: rest)); reflexivity.
Qed.

Lemma api_aggregate_ok (w : world) (items : list pyval) :
  is_ok (Api.aggregate w items)
  = forallb is_dict items && forallb (cart_value_ok w) items.
Proof.
  unfold Api.aggregate.
  rewrite <- api_count_ok, <- total_revenue_ok.
  destruct (Api.count_converted items); simpl; [|reflexivity].
  destruct (Api.total_revenue_of w items); reflexivity.
Qed.

(** The shape of a snapshot the API computed *)
Lemma api_aggregate_inv (w : world) (items : list pyval) (fs : list (string * pyval)) :
  Api.aggregate w items = Ok fs ->
  exists revenue,
    Api.count_converted items = Ok (tally items)
    /\ Api.total_revenue_of w items = Ok revenue
    /\ fs = [("total_sessions", PInt (len items));
             ("conversions", PInt (tally items));
             ("conversion_rate",
              pyval_of_num (round2 (Api.rate_of (tally items) (len items))));
             ("total_revenue", pyval_of_num (round2 revenue));
             ("avg_cart_value",
              pyval_of_num (round2 (Api.avg_of revenue (tally items))))].
Proof.
  unfold Api.aggregate. intros H.
  apply rbind_ok_inv in H as (c & Hc & H).
  apply rbind_ok_inv in H as (rev & Hrev & H).
  destruct (api_count_inv _ _ Hc) as [_ ->].
  exists rev. repeat split; try assumption. congruence.
Qed.

End CountFacts.

(** ** The snapshot of the API *)

Module SnapshotFacts.
Import Py Aws Builtins Obs CountFacts.



(** The counts and the rate of a snapshot do not depend on the order of
    the batch. *)
Lemma api_aggregate_ok_perm (w : world) (b p : list pyval) :
  Permutation b p -> is_ok (Api.aggregate w b) = is_ok (Api.aggregate w p).
Proof.
  intros H. rewrite !api_aggregate_ok.
  now rewrite (forallb_perm is_dict _ _ H), (forallb_perm (cart_value_ok w) _ _ H).
Qed.

(** C4, amended: for a permutation [p] of a batch [b] the aggregation of
    [p] returns exactly when that of [b] does, and the two snapshots agree on
    [total_sessions], [conversions] and [conversion_rate]. *)
Theorem C4_counts_and_rate_ignore_order (w : world) (b p : list pyval) :
  Permutation b p ->
  is_ok (Api.aggregate w b) = is_ok (Api.aggregate w p)
  /\ (is_ok (Api.aggregate w b) = true ->
      field "total_sessions" (Api.aggregate w b)
      = field "total_sessions" (Api.aggregate w p)
      /\ field "conversions" (Api.aggregate w b)
         = field "conversions" (Api.aggregate w p)
      /\ field "conversion_rate" (Api.aggregate w b)
         = field "conversion_rate" (Api.aggregate w p)).
Proof.
  intros H. pose proof (api_aggregate_ok_perm w b p H) as Hok.
  split; [exact Hok|]. intros Hb.
  rewrite Hb in Hok. symmetry in Hok.
  destruct (Api.aggregate w b) as [fb|] eqn:Eb; [|discriminate].
  destruct (Api.aggregate w p) as [fp|] eqn:Ep; [|discriminate].
  apply api_aggregate_inv in Eb as (rb & _ & _ & ->).
  apply api_aggregate_inv in Ep as (rp & _ & _ & ->).
  rewrite (tally_perm _ _ H), (len_perm _ _ H).
  repeat split; reflexivity.
Qed.

Lemma cents_permuted : Permutation Sample.cents Sample.cents_reordered.
Proof.
  unfold Sample.cents, Sample.cents_reordered.
  eapply perm_trans; [apply perm_skip, perm_swap|]. apply perm_swap.
Qed.

Lemma C4_witness :
  field "conversion_rate" (Api.aggregate (Sample.world_of [] (Ok tt)) Sample.cents)
  = field "conversion_rate"
      (Api.aggregate (Sample.world_of [] (Ok tt)) Sample.cents_reordered).
Proof.
  apply (proj2 (C4_counts_and_rate_ignore_order
                  (Sample.world_of [] (Ok tt)) _ _ cents_permuted)).
  vm_compute. reflexivity.
Defined.

(** C4, as stated: two orders of the same three records, with carts of
    0.01, 0.01 and 0.07 and two conversions, give [avg_cart_value] 0.05 and
    0.04. *)
Lemma C4_order_changes_avg_cart_value :
  Permutation Sample.cents Sample.cents_reordered
  /\ field "avg_cart_value" (Api.aggregate (Sample.world_of [] (Ok tt)) Sample.cents)
     = Some (PFloat (float_of_decimal (Dec 5 (-2))))
  /\ field "avg_cart_value"
       (Api.aggregate (Sample.world_of [] (Ok tt)) Sample.cents_reordered)
     = Some (PFloat (float_of_decimal (Dec 4 (-2))))
  /\ Api.aggregate (Sample.world_of [] (Ok tt)) Sample.cents
     <> Api.aggregate (Sample.world_of [] (Ok tt)) Sample.cents_reordered.
Proof.
  split; [exact cents_permuted|].
  split; [vm_compute; reflexivity|].
  split; [vm_compute; reflexivity|].
  vm_compute. discriminate.
Qed.

End SnapshotFacts.

(** ** Currency sums *)

Module RevenueFacts.
Import Py Aws Builtins Obs CountFacts.

(** The loop of the sum is a left fold of binary64 additions. *)
Lemma sum_cart_values_fold (w : world) (items : list pyval) (ds : list decimal) :
  cart_values items ds ->
  forall acc,
    Api.sum_cart_values w acc items
    = Ok (fold_left fadd (map float_of_decimal ds) acc).
Proof.
  induction 1 as [|item d items ds Hd _ IH]; intros acc; simpl; [reflexivity|].
  rewrite Hd. simpl. apply IH.
Qed.

Lemma cart_values_dicts (items : list pyval) (ds : list decimal) :
  cart_values items ds -> forallb is_dict items = true.
Proof.
  induction 1 as [|item d items ds Hd _ IH]; simpl; [reflexivity|].
  rewrite IH. destruct item; try discriminate. reflexivity.
Qed.

(** C3, amended: for a non-empty batch whose cart values are decimals,
    the sum is accumulated in binary64, [0.0 + float(v1) + float(v2) + ...]
    from left to right; [total_revenue] is that sum rounded to two decimals
    and [avg_cart_value] is the unrounded sum divided by the conversions,
    then rounded. *)
Theorem C3_revenue_is_a_rounded_float_sum
  (w : world) (items : list pyval) (ds : list decimal) :
  items <> [] ->
  cart_values items ds ->
  let s := fold_left fadd (map float_of_decimal ds) (S754_zero false) in
  field "total_revenue" (Api.aggregate w items) = Some (PFloat (round2_float s))
  /\ field "avg_cart_value" (Api.aggregate w items)
     = Some (pyval_of_num (round2 (Api.avg_of (NFloat s) (tally items)))).
Proof.
  intros Hne Hcv s.
  unfold Api.aggregate.
  rewrite (api_count_dicts _ (cart_values_dicts _ _ Hcv)). simpl rbind.
  unfold Api.total_revenue_of.
  destruct items as [|item rest]; [congruence|].
  rewrite (sum_cart_values_fold w _ _ Hcv). simpl.
  split; reflexivity.
Qed.

Lemma thirds_cart_values :
  cart_values Sample.thirds [Dec 33333 (-3); Dec 33333 (-3); Dec 33334 (-3)].
Proof. repeat constructor. Qed.

(** For carts of 33.333, 33.333 and 33.334 the API reports 100.0. *)
Lemma C3_witness :
  field "total_revenue" (Api.aggregate (Sample.world_of [] (Ok tt)) Sample.thirds)
  = Some (PFloat (float_of_Z 100)).
Proof.
  rewrite (proj1 (C3_revenue_is_a_rounded_float_sum
                    (Sample.world_of [] (Ok tt)) Sample.thirds _
                    ltac:(discriminate) thirds_cart_values)).
  vm_compute. reflexivity.
Defined.

(** C3, as stated: for carts of 0.005 and 0.010 the exact decimal sum is
    0.015, which rounds to 0.02; the API reports 0.01, the rounding of the
    binary64 sum. *)
Lemma C3_float_sum_is_not_the_decimal_sum :
  cart_values Sample.half_cents [Dec 5 (-3); Dec 10 (-3)]
  /\ DecimalSpec.total_revenue [Dec 5 (-3); Dec 10 (-3)] = Dec 2 (-2)
  /\ field "total_revenue"
       (Api.aggregate (Sample.world_of [] (Ok tt)) Sample.half_cents)
     = Some (PFloat (float_of_decimal (Dec 1 (-2))))
  /\ field "total_revenue"
       (Api.aggregate (Sample.world_of [] (Ok tt)) Sample.half_cents)
     <> Some (PFloat (float_of_decimal
                        (DecimalSpec.total_revenue [Dec 5 (-3); Dec 10 (-3)]))).
Proof.
  split; [repeat constructor|].
  split; [vm_compute; reflexivity|].
  split; [vm_compute; reflexivity|].
  vm_compute. discriminate.
Qed.

(** ** The two snapshots *)

(** The processor computes its rate with the expression of the API. *)
Lemma rate_of_same (c n : Z) : Processor.rate_of c n = Api.rate_of c n.
Proof. reflexivity. Qed.

(** C2, amended: when the API computes a snapshot for a batch, the
    processor computes one too, with the same [total_sessions]; the count the
    API calls [conversions] is the processor's [total_conversions]; the API's
    [conversion_rate] is the processor's rounded to two decimals; and
    [total_revenue] and [avg_cart_value] are fields of the API only. *)
Theorem C2_snapshots_share_counts (w : world) (items : list pyval) :
  is_ok (Api.aggregate w items) = true ->
  exists (n c : Z) (rate : num),
    Processor.aggregate items
    = Ok [("total_sessions", PInt n);
          ("total_conversions", PInt c);
          ("conversion_rate", pyval_of_num rate)]
    /\ field "total_sessions" (Api.aggregate w items) = Some (PInt n)
    /\ field "conversions" (Api.aggregate w items) = Some (PInt c)
    /\ field "conversion_rate" (Api.aggregate w items)
       = Some (pyval_of_num (round2 rate))
    /\ field "total_revenue" (Processor.aggregate items) = None
    /\ field "avg_cart_value" (Processor.aggregate items) = None.
Proof.
  intros Hok.
  destruct (Api.aggregate w items) as [fa|] eqn:Ea; [|discriminate].
  apply api_aggregate_inv in Ea as (rev & Hc & _ & ->).
  exists (len items), (tally items), (Processor.rate_of (tally items) (len items)).
  unfold Processor.aggregate.
  rewrite count_converted_same, Hc. simpl.
  repeat split; reflexivity.
Qed.

Lemma C2_witness :
  exists (n c : Z) (rate : num),
    Processor.aggregate Sample.three_sessions
    = Ok [("total_sessions", PInt n);
          ("total_conversions", PInt c);
          ("conversion_rate", pyval_of_num rate)]
    /\ field "total_sessions"
         (Api.aggregate (Sample.world_of [] (Ok tt)) Sample.three_sessions)
       = Some (PInt n)
    /\ field "conversions"
         (Api.aggregate (Sample.world_of [] (Ok tt)) Sample.three_sessions)
       = Some (PInt c)
    /\ field "conversion_rate"
         (Api.aggregate (Sample.world_of [] (Ok tt)) Sample.three_sessions)
       = Some (pyval_of_num (round2 rate))
    /\ field "total_revenue" (Processor.aggregate Sample.three_sessions) = None
    /\ field "avg_cart_value" (Processor.aggregate Sample.three_sessions) = None.
Proof.
  apply (C2_snapshots_share_counts (Sample.world_of [] (Ok tt)) Sample.three_sessions).
  vm_compute. reflexivity.
Defined.

End RevenueFacts.

(** ** Runs of the processor *)

Module ProcessorFacts.
Import Py Aws Builtins Obs CountFacts.

(** The run of an aggregation trigger up to the answer of the publish
    step: the snapshot is returned when [put_object] returns, and the
    exception of [put_object] leaves the [try] otherwise. *)
Lemma aggregate_run (w : world) (d : list (string * pyval)) (bucket table : string)
  (items : list pyval) (fields : list (string * pyval)) :
  aggregate_trigger d = true ->
  environ w "S3_BUCKET" = Some bucket ->
  environ w "DYNAMODB_TABLE" = Some table ->
  table_scan w table 100 = Ok items ->
  Processor.aggregate items = Ok fields ->
  Processor.handler_try w (PDict d) init
  = let s := {| log := [CTableScan table 100;
                        CS3PutObject bucket (metrics_key w) (metrics_doc w fields)
                          "application/json"];
                ticks := 2 |} in
    match s3_put_object w bucket (metrics_key w) (metrics_doc w fields)
            "application/json" with
    | Ok _ => (Ok {| statusCode := 200; headers := [];
                     body := metrics_doc w fields |}, s)
    | Raise e => (Raise e, s)
    end.
Proof.
  unfold aggregate_trigger. intros Ht Hb Htab Hscan Hagg.
  destruct (assoc "Records" d) eqn:ER; [discriminate|].
  destruct (assoc "action" d) as [a|] eqn:EA; [|discriminate].
  unfold Processor.handler_try, Processor.handle_action, Processor.handle_aggregate,
    Processor.s3_put, Api.dynamodb_Table, bind, lift, ret, emit, now, init.
  simpl. rewrite ER, EA. simpl. rewrite Ht, Hb, Htab. simpl.
  rewrite Hscan, Hagg. simpl.
  unfold metrics_key, metrics_doc.
  destruct (s3_put_object _ _ _ _ _) as [[]|e]; reflexivity.
Qed.

(** C1, amended: when the snapshot of an aggregation trigger has been
    computed and [put_object] raises, the handler prints the error and
    returns status 500 with the body [{"error": message}]; the snapshot is
    not part of the response. *)
Theorem C1_publish_failure_is_reported_as_500
  (w : world) (d : list (string * pyval)) (bucket table : string)
  (items : list pyval) (fields : list (string * pyval)) (e : exn) :
  aggregate_trigger d = true ->
  environ w "S3_BUCKET" = Some bucket ->
  environ w "DYNAMODB_TABLE" = Some table ->
  table_scan w table 100 = Ok items ->
  Processor.aggregate items = Ok fields ->
  s3_put_object w bucket (metrics_key w) (metrics_doc w fields) "application/json"
  = Raise e ->
  Processor.lambda_handler w (PDict d) init
  = (Ok {| statusCode := 500; headers := []; body := error_doc (exn_msg e) |},
     {| log := [CTableScan table 100;
                CS3PutObject bucket (metrics_key w) (metrics_doc w fields)
                  "application/json";
                CPrint ("ERROR: " ++ exn_msg e)];
        ticks := 2 |}).
Proof.
  intros Ht Hb Htab Hscan Hagg Hput.
  unfold Processor.lambda_handler, try_except.
  rewrite (aggregate_run w d bucket table items fields Ht Hb Htab Hscan Hagg).
  cbv zeta. rewrite Hput. reflexivity.
Qed.

Lemma C1_witness :
  returned (Processor.lambda_handler Sample.denied_world Sample.aggregate_event init)
  = Some {| statusCode := 500; headers := [];
            body := error_doc (exn_msg Sample.access_denied) |}.
Proof.
  unfold Sample.aggregate_event.
  rewrite (C1_publish_failure_is_reported_as_500 Sample.denied_world
             [("action", PStr "aggregate")]
             "customer-analytics-data" "customer-behavior" Sample.three_sessions
             [("total_sessions", PInt 3);
              ("total_conversions", PInt 1);
              ("conversion_rate", PFloat (fmul (int_truediv 1 3) (float_of_Z 100)))]
             Sample.access_denied);
    reflexivity.
Defined.

(** C1, as stated: the scan returns three sessions, the snapshot is
    computed, [put_object] is denied, and the response holds the error and
    no field of the snapshot. *)
Lemma C1_publish_failure_discards_snapshot :
  table_scan Sample.denied_world "customer-behavior" 100 = Ok Sample.three_sessions
  /\ is_ok (Processor.aggregate Sample.three_sessions) = true
  /\ returned (Processor.lambda_handler Sample.denied_world Sample.aggregate_event init)
     = Some {| statusCode := 500; headers := [];
               body := error_doc (exn_msg Sample.access_denied) |}
  /\ body_field "total_sessions"
       (Processor.lambda_handler Sample.denied_world Sample.aggregate_event init)
     = None
  /\ body_field "total_conversions"
       (Processor.lambda_handler Sample.denied_world Sample.aggregate_event init)
     = None
  /\ body_field "conversion_rate"
       (Processor.lambda_handler Sample.denied_world Sample.aggregate_event init)
     = None.
Proof. vm_compute. repeat split; reflexivity. Qed.

(** The loop over records without ['s3'] runs to its end and does nothing. *)
Lemma process_records_none (w : world) (l : list pyval) (s : state) :
  forallb lacks_s3 l = true -> Processor.process_records w l s = (Ok None, s).
Proof.
  induction l as [|r l IH]; simpl; [reflexivity|].
  intros H. apply andb_prop in H as [Hr Hl].
  unfold lacks_s3 in Hr. unfold bind at 1, lift.
  destruct (contains "s3" r) as [[|]|]; try discriminate.
  now apply IH.
Qed.

(** C10, amended: an event that is a JSON object whose ['Records'], if
    present, is a sequence of records on each of which ['s3' in record] is
    [False], and whose ['action'], if present, is not ["aggregate"], gets
    status 200 and the body [{"message": "Data processor ready"}], and no
    service is called. *)
Theorem C10_unrecognised_event_gets_ready (w : world) (d : list (string * pyval)) :
  no_s3_record d = true ->
  not_aggregate d = true ->
  Processor.lambda_handler w (PDict d) init = (Ok Processor.ready, init).
Proof.
  unfold no_s3_record, not_aggregate. intros Hr Ha.
  unfold Processor.lambda_handler, try_except, Processor.handler_try,
    Processor.handle_action, bind, lift, ret.
  simpl.
  destruct (assoc "Records" d) as [rs|] eqn:ER; simpl.
  - destruct (iter rs) as [l|]; [|discriminate].
    rewrite (process_records_none w l init Hr).
    destruct (assoc "action" d) as [a|]; simpl; [|reflexivity].
    destruct (eq_str a "aggregate"); [discriminate | reflexivity].
  - destruct (assoc "action" d) as [a|]; simpl; [|reflexivity].
    destruct (eq_str a "aggregate"); [discriminate | reflexivity].
Qed.

Lemma C10_witness :
  Processor.lambda_handler (Sample.world_of [] (Ok tt))
    (PDict [("Records", PList [PDict [("eventSource", PStr "aws:sqs")]]);
            ("action", PStr "refresh")])
    init
  = (Ok Processor.ready, init).
Proof.
  apply (C10_unrecognised_event_gets_ready (Sample.world_of [] (Ok tt))
           [("Records", PList [PDict [("eventSource", PStr "aws:sqs")]]);
            ("action", PStr "refresh")]);
    reflexivity.
Defined.

(** C10, as stated: the event [{"Records": [None]}] holds no record with
    ['s3'] and no action, and the test ['s3' in record] raises on its record:
    the answer is 500, not the ready message. *)
Lemma C10_record_that_is_no_container_is_500 :
  s3_target PNone = None
  /\ not_aggregate [("Records", PList [PNone])] = true
  /\ Processor.lambda_handler (Sample.world_of [] (Ok tt))
       (PDict [("Records", PList [PNone])]) init
     = (Ok {| statusCode := 500; headers := [];
              body := error_doc "argument of type 'NoneType' is not iterable" |},
        {| log := [CPrint "ERROR: argument of type 'NoneType' is not iterable"];
           ticks := 0 |})
  /\ returned (Processor.lambda_handler (Sample.world_of [] (Ok tt))
                 (PDict [("Records", PList [PNone])]) init)
     <> Some Processor.ready.
Proof.
  split; [reflexivity|]. split; [reflexivity|].
  split; [vm_compute; reflexivity|]. vm_compute. discriminate.
Qed.

Lemma s3_target_getitems (record : pyval) (bucket key : string) :
  s3_target record = Some (bucket, key) ->
  exists s b o,
    contains "s3" record = Ok true
    /\ getitem record "s3" = Ok s
    /\ getitem s "bucket" = Ok b /\ getitem b "name" = Ok (PStr bucket)
    /\ getitem s "object" = Ok o /\ getitem o "key" = Ok (PStr key).
Proof.
  unfold s3_target. intros H.
  destruct record as [| | | | | | |r|]; try discriminate.
  destruct (assoc "s3" r) as [s|] eqn:Es; [|discriminate].
  destruct s as [| | | | | | |s|]; try discriminate.
  destruct (assoc "bucket" s) as [b|] eqn:Eb; [|discriminate].
  destruct b as [| | | | | | |b|]; try discriminate.
  destruct (assoc "object" s) as [o|] eqn:Eo; [|discriminate].
  destruct o as [| | | | | | |o|]; try discriminate.
  destruct (assoc "name" b) as [n|] eqn:En; [|discriminate].
  destruct n as [| | | |n| | | |]; try discriminate.
  destruct (assoc "key" o) as [k|] eqn:Ek; [|discriminate].
  destruct k as [| | | |k| | | |]; try discriminate.
  injection H as -> ->.
  exists (PDict s), (PDict b), (PDict o). simpl.
  rewrite Es, Eb, Eo, En, Ek. repeat split; reflexivity.
Qed.

(** The loop skips the records without ['s3'] and ends at the first one
    that names an object. *)
Lemma process_records_first (w : world) (pre post : list pyval) (record : pyval)
  (bucket key data : string) (s : state) :
  forallb lacks_s3 pre = true ->
  s3_target record = Some (bucket, key) ->
  s3_get_object w bucket key = Ok data ->
  Processor.process_records w (pre ++ record :: post) s
  = (Ok (Some {| statusCode := 200; headers := [];
                 body := JsonText (PDict [("message",
                   PStr ("Processed " ++ str_of_Z (len (split_lines data) - 1)
                         ++ " records from " ++ key))]) |}),
     {| log := log s ++ [CS3GetObject bucket key;
                         CPrint ("Processed " ++ key ++ ": "
                                 ++ str_of_Z (len (split_lines data) - 1)
                                 ++ " records")];
        ticks := ticks s |}).
Proof.
  intros Hpre Ht Hget.
  induction pre as [|r pre IH].
  - destruct (s3_target_getitems _ _ _ Ht) as (s3 & b & o & Hc & H1 & H2 & H3 & H4 & H5).
    cbn [app Processor.process_records].
    unfold bind, lift, ret, emit, Processor.s3_get, Processor.record_count_of.
    rewrite Hc, H1, H2, H3, H4, H5. cbn. rewrite Hget. cbn.
    rewrite <- app_assoc. reflexivity.
  - cbn [forallb] in Hpre. apply andb_prop in Hpre as [Hr Hpre].
    cbn [app Processor.process_records]. unfold bind at 1, lift.
    unfold lacks_s3 in Hr.
    destruct (contains "s3" r) as [[|]|]; try discriminate.
    now apply IH.
Qed.

Lemma split_lines_nonempty (data : string) : split_lines data <> [].
Proof.
  destruct data as [|c rest]; simpl; [discriminate|].
  destruct (Ascii.eqb c newline); [discriminate|].
  destruct (split_lines rest); discriminate.
Qed.

(** [split] yields one piece more than there are newline characters. *)
Lemma split_lines_length (data : string) :
  len (split_lines data) = count_newlines data + 1.
Proof.
  induction data as [|c rest IH]; cbn [split_lines count_newlines].
  - reflexivity.
  - destruct (Ascii.eqb c newline).
    + rewrite len_cons, IH. lia.
    + pose proof (split_lines_nonempty rest) as Hne.
      destruct (split_lines rest) as [|l ls]; [congruence|].
      rewrite len_cons in *. lia.
Qed.

(** The run of a storage event: for an event whose first record holding
    ['s3'] names a bucket and a key, the processor reads that object and
    answers 200 with [len(data.split('\n')) - 1], which is the number of line
    breaks of the content; the read of the object and the print are its only
    effects, so nothing is written to the table. *)
Lemma storage_event_run
  (w : world) (d : list (string * pyval)) (pre post : list pyval) (record : pyval)
  (bucket key data : string) :
  assoc "Records" d = Some (PList (pre ++ record :: post)) ->
  forallb lacks_s3 pre = true ->
  s3_target record = Some (bucket, key) ->
  s3_get_object w bucket key = Ok data ->
  Processor.lambda_handler w (PDict d) init
  = (Ok {| statusCode := 200; headers := [];
           body := JsonText (PDict [("message",
             PStr ("Processed " ++ str_of_Z (len (split_lines data) - 1)
                   ++ " records from " ++ key))]) |},
     {| log := [CS3GetObject bucket key;
                CPrint ("Processed " ++ key ++ ": "
                        ++ str_of_Z (len (split_lines data) - 1) ++ " records")];
        ticks := 0 |})
  /\ len (split_lines data) - 1 = count_newlines data.
Proof.
  intros HR Hpre Ht Hget. split.
  - unfold Processor.lambda_handler, try_except, Processor.handler_try.
    unfold bind at 1, lift at 1. cbn [contains]. rewrite HR.
    unfold bind at 1. unfold bind at 1, lift at 1. cbn [getitem]. rewrite HR.
    unfold bind at 1, lift at 1. cbn [iter].
    rewrite (process_records_first w pre post record bucket key data init Hpre Ht Hget).
    reflexivity.
  - rewrite split_lines_length. lia.
Qed.

Lemma line_count_terminated (a : string) (b : bool) :
  Shape.line_count_from b (a ++ Sample.lf) = count_newlines a + 1.
Proof.
  revert b. induction a as [|c a IH]; intros b.
  - reflexivity.
  - cbn [String.append Shape.line_count_from count_newlines].
    destruct (Ascii.eqb c newline); rewrite IH; lia.
Qed.

Lemma line_count_unterminated (a : string) (c : ascii) (b : bool) :
  Ascii.eqb c newline = false ->
  Shape.line_count_from b (a ++ String c EmptyString) = count_newlines a + 1.
Proof.
  intros Hc. revert b. induction a as [|c' a IH]; intros b.
  - cbn [String.append Shape.line_count_from count_newlines]. rewrite Hc. reflexivity.
  - cbn [String.append Shape.line_count_from count_newlines].
    destruct (Ascii.eqb c' newline); rewrite IH; lia.
Qed.

Lemma count_newlines_append (a b : string) :
  count_newlines (a ++ b) = count_newlines a + count_newlines b.
Proof.
  induction a as [|c a IH]; cbn [String.append count_newlines]; [reflexivity|].
  rewrite IH. lia.
Qed.

(** The count excludes the header only when the text does not end with a
    line break: then it is the line count minus one. *)
Lemma unterminated_text_excludes_header (a : string) (c : ascii) :
  Ascii.eqb c newline = false ->
  Processor.record_count_of (a ++ String c EmptyString)
  = Shape.line_count (a ++ String c EmptyString) - 1.
Proof.
  intros Hc. unfold Processor.record_count_of, Shape.line_count.
  rewrite split_lines_length, (line_count_unterminated a c false Hc),
    count_newlines_append.
  cbn [count_newlines]. rewrite Hc. lia.
Qed.

(** For a text that ends with a line break the count is the line count
    itself. *)
Lemma terminated_text_counts_every_line (a : string) :
  Processor.record_count_of (a ++ Sample.lf) = Shape.line_count (a ++ Sample.lf).
Proof.
  unfold Processor.record_count_of, Shape.line_count.
  rewrite split_lines_length, line_count_terminated, count_newlines_append.
  assert (H : count_newlines Sample.lf = 1) by reflexivity. rewrite H. lia.
Qed.

(** C5: the code on an object whose text ends with a line break, which is
    how the sample files are written: the record count the processor reports
    is the line count of the content, header included, not the line count
    minus the header line that the comment of line 30 announces.  The read of
    the object is the only call to a service. *)
Theorem C5_terminated_object_is_counted_with_its_header
  (w : world) (d : list (string * pyval)) (pre post : list pyval) (record : pyval)
  (bucket key text : string) :
  assoc "Records" d = Some (PList (pre ++ record :: post)) ->
  forallb lacks_s3 pre = true ->
  s3_target record = Some (bucket, key) ->
  s3_get_object w bucket key = Ok (text ++ Sample.lf) ->
  Processor.lambda_handler w (PDict d) init
  = (Ok {| statusCode := 200; headers := [];
           body := JsonText (PDict [("message",
             PStr ("Processed " ++ str_of_Z (Shape.line_count (text ++ Sample.lf))
                   ++ " records from " ++ key))]) |},
     {| log := [CS3GetObject bucket key;
                CPrint ("Processed " ++ key ++ ": "
                        ++ str_of_Z (Shape.line_count (text ++ Sample.lf)) ++ " records")];
        ticks := 0 |}).
Proof.
  intros HR Hpre Ht Hget.
  rewrite (proj1 (storage_event_run w d pre post record bucket key _ HR Hpre Ht Hget)).
  pose proof (terminated_text_counts_every_line text) as H.
  unfold Processor.record_count_of in H. rewrite H. reflexivity.
Qed.

(** A header and two rows: three lines, and three records reported. *)
Lemma C5_witness :
  Shape.line_count Shape.csv_of_two_rows = 3
  /\ returned (Processor.lambda_handler (Shape.object_world Shape.csv_of_two_rows)
                 (Sample.s3_event "customer-analytics-data" "raw/sessions.csv") init)
     = Some {| statusCode := 200; headers := [];
               body := JsonText (PDict [("message",
                 PStr "Processed 3 records from raw/sessions.csv")]) |}.
Proof.
  split; [reflexivity|].
  unfold Sample.s3_event.
  rewrite (C5_terminated_object_is_counted_with_its_header
             (Shape.object_world Shape.csv_of_two_rows)
             [("Records",
               PList [PDict [("eventSource", PStr "aws:s3");
                             ("s3", PDict [("bucket", PDict [("name", PStr "customer-analytics-data")]);
                                           ("object", PDict [("key", PStr "raw/sessions.csv")])])]])]
             [] []
             (PDict [("eventSource", PStr "aws:s3");
                     ("s3", PDict [("bucket", PDict [("name", PStr "customer-analytics-data")]);
                                   ("object", PDict [("key", PStr "raw/sessions.csv")])])])
             "customer-analytics-data" "raw/sessions.csv"
             ("customer_id,session_timestamp" ++ Sample.lf ++ "CUST0001,1700000000"
              ++ Sample.lf ++ "CUST0002,1700000060")
             eq_refl eq_refl eq_refl eq_refl).
  reflexivity.
Defined.

End ProcessorFacts.

(** ** The table of the examples *)

Module StoreFacts.
Import Py Aws Builtins Obs.

Lemma sk_leb_total (a b : pyval) : Store.sk_leb a b = false -> Store.sk_leb b a = true.
Proof.
  unfold Store.sk_leb, Store.dec_leb. intros H.
  apply Qle_bool_iff. apply Qlt_le_weak. apply Qnot_le_lt.
  intros Hle. apply Qle_bool_iff in Hle. congruence.
Qed.

Lemma sk_le_trans (a b c : pyval) : Store.sk_le a b -> Store.sk_le b c -> Store.sk_le a c.
Proof.
  unfold Store.sk_le, Store.sk_leb, Store.dec_leb. rewrite !Qle_bool_iff.
  apply Qle_trans.
Qed.

Lemma insert_perm (x : pyval) (l : list pyval) :
  Permutation (x :: l) (Store.insert_by_sk x l).
Proof.
  induction l as [|y r IH]; simpl; [reflexivity|].
  destruct (Store.sk_leb x y); [reflexivity|].
  rewrite perm_swap. now apply perm_skip.
Qed.

Lemma sort_perm (l : list pyval) : Permutation l (Store.sort_by_sk l).
Proof.
  induction l as [|x r IH]; simpl; [reflexivity|].
  rewrite <- insert_perm. now apply perm_skip.
Qed.

Lemma insert_sorted (x : pyval) (l : list pyval) :
  StronglySorted Store.sk_le l -> StronglySorted Store.sk_le (Store.insert_by_sk x l).
Proof.
  induction 1 as [|y r Hr IH Hy]; simpl.
  - repeat constructor.
  - destruct (Store.sk_leb x y) eqn:E.
    + constructor; [now constructor|].
      constructor; [exact E|].
      eapply Forall_impl; [|exact Hy]. intros z. now apply sk_le_trans.
    + constructor; [exact IH|].
      eapply Permutation_Forall; [apply insert_perm|].
      constructor; [now apply sk_leb_total | exact Hy].
Qed.

Lemma sort_sorted (l : list pyval) : StronglySorted Store.sk_le (Store.sort_by_sk l).
Proof.
  induction l as [|x r IH]; simpl; [constructor | now apply insert_sorted].
Qed.

End StoreFacts.

(** ** Runs of the API *)

Module ApiFacts.
Import Py Aws Builtins Obs CountFacts StoreFacts.

Lemma handle_customer_status (w : world) (table : string) (event : pyval)
  (s s' : state) (resp : response) :
  Api.handle_customer w table event s = (Ok resp, s') ->
  statusCode resp = 200 \/ statusCode resp = 400.
Proof.
  unfold Api.handle_customer, bind, lift, ret, emit.
  destruct (get event "queryStringParameters" (PDict [])) as [qsp|]; [|discriminate].
  destruct (get (if truthy qsp then qsp else PDict []) "customer_id" PNone)
    as [cid|]; [|discriminate].
  destruct (truthy cid); cbn [negb].
  - destruct (table_query w table cid) as [out|]; [|discriminate].
    destruct (encode_decimal (PDict _)) as [doc|]; [|discriminate].
    intros H. inversion H; subst. now left.
  - intros H. inversion H; subst. now right.
Qed.

Lemma handle_metrics_status (w : world) (table : string)
  (s s' : state) (resp : response) :
  Api.handle_metrics w table s = (Ok resp, s') -> statusCode resp = 200.
Proof.
  unfold Api.handle_metrics, bind, lift, ret, emit, now. simpl.
  destruct (table_scan w table 100) as [items|]; [|discriminate].
  destruct (Api.aggregate w items) as [fields|]; [|discriminate].
  intros H. inversion H; subst. reflexivity.
Qed.

Lemma handle_trigger_status (w : world) (s s' : state) (resp : response) :
  Api.handle_trigger w s = (Ok resp, s') -> statusCode resp = 202.
Proof.
  unfold Api.handle_trigger, bind, lift, ret, emit. simpl.
  destruct (lambda_invoke w _ _ _) as [rid|]; [|discriminate].
  intros H. inversion H; subst. reflexivity.
Qed.

(** Every response the [try] returns has one of four statuses. *)
Lemma handler_try_status (w : world) (event : pyval) (s s' : state) (resp : response) :
  Api.handler_try w event s = (Ok resp, s') ->
  In (statusCode resp) [200; 202; 400; 404].
Proof.
  unfold Api.handler_try, Api.dynamodb_Table.
  unfold bind at 1, lift at 1.
  destruct (get event "httpMethod" (PStr "GET")) as [http_method|]; [|discriminate].
  unfold bind at 1, lift at 1.
  destruct (get event "path" (PStr "/")) as [path|]; [|discriminate].
  unfold bind at 1.
  destruct (environ w "DYNAMODB_TABLE") as [table|]; [|discriminate].
  unfold ret at 1.
  destruct (eq_str path "/health").
  { unfold bind, now, ret. intros H. inversion H; subst. simpl. tauto. }
  destruct (eq_str path "/customer" && eq_str http_method "GET").
  { intros H. apply handle_customer_status in H as [-> | ->]; simpl; tauto. }
  destruct (eq_str path "/metrics" && eq_str http_method "GET").
  { intros H. apply handle_metrics_status in H as ->. simpl; tauto. }
  destruct (eq_str path "/trigger-processing" && eq_str http_method "POST").
  { intros H. apply handle_trigger_status in H as ->. simpl; tauto. }
  unfold ret. intros H. inversion H; subst. simpl. tauto.
Qed.

(** C9: for every event, world and state the API handler returns a
    response and raises nothing: the response of the [try] when it returns
    one, and otherwise status 500 with the body [{"error": str(e)}] for the
    exception [e] that left the [try], after printing it; the status is one
    of 200, 202, 400, 404 and 500 and the body is a JSON text. *)
Theorem C9_api_handler_always_answers (w : world) (event : pyval) (s : state) :
  Api.lambda_handler w event s
  = match Api.handler_try w event s with
    | (Ok resp, s') => (Ok resp, s')
    | (Raise e, s') =>
        (Ok {| statusCode := 500; headers := []; body := error_doc (exn_msg e) |},
         {| log := log s' ++ [CPrint ("ERROR: " ++ exn_msg e)]; ticks := ticks s' |})
    end
  /\ exists (resp : response) (s' : state),
       Api.lambda_handler w event s = (Ok resp, s')
       /\ In (statusCode resp) api_statuses.
Proof.
  unfold Api.lambda_handler, try_except.
  destruct (Api.handler_try w event s) as [[resp|e] s'] eqn:E.
  - split; [reflexivity|]. exists resp, s'. split; [reflexivity|].
    apply handler_try_status in E. unfold api_statuses. simpl in *. tauto.
  - split; [reflexivity|]. eexists _, _. split; [reflexivity|].
    unfold api_statuses. simpl. tauto.
Qed.

(** The run of [GET /metrics]: one scan, the aggregation, one reading of
    the clock. *)
Lemma metrics_run (w : world) (table : string) (items : list pyval) :
  environ w "DYNAMODB_TABLE" = Some table ->
  table_scan w table 100 = Ok items ->
  Api.handler_try w Sample.metrics_event init
  = match Api.aggregate w items with
    | Ok fields =>
        (Ok {| statusCode := 200; headers := json_headers;
               body := metrics_doc w fields |},
         {| log := [CTableScan table 100]; ticks := 1 |})
    | Raise e => (Raise e, {| log := [CTableScan table 100]; ticks := 0 |})
    end.
Proof.
  intros Htab Hscan.
  unfold Api.handler_try, Api.handle_metrics, Api.dynamodb_Table,
    bind, lift, ret, emit, now, init.
  simpl. rewrite Htab. simpl. rewrite Hscan.
  destruct (Api.aggregate w items); reflexivity.
Qed.

(** C7: aggregating an empty batch returns, without raising, the snapshot
    with [total_sessions], [conversions], [conversion_rate], [total_revenue]
    and [avg_cart_value] all [0], both divisions being guarded; and when the
    scan of [GET /metrics] finds no item the handler answers 200 with that
    snapshot. *)
Theorem C7_empty_batch_is_all_zero (w : world) (table : string) :
  environ w "DYNAMODB_TABLE" = Some table ->
  table_scan w table 100 = Ok [] ->
  let zeros := [("total_sessions", PInt 0);
                ("conversions", PInt 0);
                ("conversion_rate", PInt 0);
                ("total_revenue", PInt 0);
                ("avg_cart_value", PInt 0)] in
  Api.aggregate w [] = Ok zeros
  /\ Api.lambda_handler w Sample.metrics_event init
     = (Ok {| statusCode := 200; headers := json_headers;
              body := metrics_doc w zeros |},
        {| log := [CTableScan table 100]; ticks := 1 |}).
Proof.
  intros Htab Hscan zeros. split; [reflexivity|].
  unfold Api.lambda_handler, try_except.
  rewrite (metrics_run w table [] Htab Hscan).
  reflexivity.
Qed.

Lemma C7_witness :
  body_field "avg_cart_value"
    (Api.lambda_handler (Sample.world_of [] (Ok tt)) Sample.metrics_event init)
  = Some (PInt 0).
Proof.
  rewrite (proj2 (C7_empty_batch_is_all_zero (Sample.world_of [] (Ok tt))
                    "customer-behavior" eq_refl eq_refl)).
  reflexivity.
Defined.

(** C2, as stated: over a table of three sessions, one of them converted
    with a cart of 150.00, the body of [GET /metrics] and the body returned
    for [{"action": "aggregate"}] differ besides the timestamp: the rate is
    33.33 in the first and 33.33333333333333 in the second, and only the first
    has [total_revenue]. *)
Lemma C2_handlers_return_different_snapshots :
  without_timestamp (Api.lambda_handler Sample.granted_world Sample.metrics_event init)
  <> without_timestamp
       (Processor.lambda_handler Sample.granted_world Sample.aggregate_event init)
  /\ body_field "conversion_rate"
       (Api.lambda_handler Sample.granted_world Sample.metrics_event init)
     = Some (PFloat (float_of_decimal (Dec 3333 (-2))))
  /\ body_field "conversion_rate"
       (Processor.lambda_handler Sample.granted_world Sample.aggregate_event init)
     = Some (PFloat (fmul (int_truediv 1 3) (float_of_Z 100)))
  /\ float_of_decimal (Dec 3333 (-2)) <> fmul (int_truediv 1 3) (float_of_Z 100)
  /\ body_field "total_revenue"
       (Api.lambda_handler Sample.granted_world Sample.metrics_event init)
     = Some (PFloat (float_of_Z 150))
  /\ body_field "total_revenue"
       (Processor.lambda_handler Sample.granted_world Sample.aggregate_event init)
     = None.
Proof.
  split; [vm_compute; discriminate|].
  split; [vm_compute; reflexivity|].
  split; [vm_compute; reflexivity|].
  split; [vm_compute; discriminate|].
  split; vm_compute; reflexivity.
Qed.


(** The run of [GET /customer?customer_id=cid] for the answer of the
    table. *)
Lemma customer_run (w : world) (table cid : string) (out : query_output)
  (sessions : list pyval) :
  cid <> "" ->
  environ w "DYNAMODB_TABLE" = Some table ->
  table_query w table (PStr cid) = Ok out ->
  map_result encode_decimal (q_items out) = Ok sessions ->
  Api.lambda_handler w (Sample.customer_event cid) init
  = (Ok {| statusCode := 200; headers := json_headers;
           body := JsonText (PDict [("customer_id", PStr cid);
                                    ("sessions", PList sessions);
                                    ("total_sessions", PInt (q_count out))]) |},
     {| log := [CTableQuery table (PStr cid)]; ticks := 0 |}).
Proof.
  intros Hcid Htab Hq Henc.
  assert (Ht : String.eqb cid "" = false) by now apply String.eqb_neq.
  unfold Api.lambda_handler, try_except, Api.handler_try, Api.handle_customer,
    Api.dynamodb_Table, bind, lift, ret, emit, init.
  simpl. rewrite Htab. simpl. rewrite Ht. simpl. rewrite Hq. simpl.
  rewrite Henc. reflexivity.
Qed.

(** The sessions of CUST0001 come back oldest first. *)
Example customer_sessions_oldest_first :
  body_field "sessions"
    (Api.lambda_handler Sample.granted_world (Sample.customer_event "CUST0001") init)
  = Some (PList
      [PDict [("customer_id", PStr "CUST0001");
              ("session_timestamp", PFloat (float_of_Z 1699990000));
              ("converted", PBool false);
              ("cart_value", PFloat (S754_zero false))];
       PDict [("customer_id", PStr "CUST0001");
              ("session_timestamp", PFloat (float_of_Z 1700000000));
              ("converted", PBool true);
              ("cart_value", PFloat (float_of_Z 150))]]).
Proof. vm_compute. reflexivity. Qed.

End ApiFacts.

(** * Further properties of the handlers *)

(** ** The routes of the API *)

Module ApiRoutes.
Import Py Aws Builtins Obs Shape CountFacts.

(** The [try] of the API on a dict, once the table name is known: the
    chain of tests on the path and the method. *)
Lemma api_dispatch (w : world) (d : list (string * pyval)) (table : string) (s : state) :
  environ w "DYNAMODB_TABLE" = Some table ->
  Api.handler_try w (PDict d) s
  = if eq_str (path_of d) "/health" then
      (Ok {| statusCode := 200; headers := json_headers;
             body := JsonText (PDict [("status", PStr "healthy");
                                      ("timestamp", PStr (now_isoformat w (ticks s)))]) |},
       {| log := log s; ticks := S (ticks s) |})
    else if eq_str (path_of d) "/customer" && eq_str (method_of d) "GET" then
      Api.handle_customer w table (PDict d) s
    else if eq_str (path_of d) "/metrics" && eq_str (method_of d) "GET" then
      Api.handle_metrics w table s
    else if eq_str (path_of d) "/trigger-processing" && eq_str (method_of d) "POST" then
      Api.handle_trigger w s
    else
      (Ok {| statusCode := 404; headers := []; body := error_doc "Endpoint not found" |}, s).
Proof.
  intros Htab.
  unfold Api.handler_try, Api.dynamodb_Table, path_of, method_of.
  unfold bind at 1, lift at 1. cbn [get].
  unfold bind at 1, lift at 1. cbn [get].
  rewrite Htab. unfold bind at 1, ret at 1.
  destruct (eq_str _ "/health"); [reflexivity|].
  destruct (eq_str _ "/customer" && eq_str _ "GET"); [reflexivity|].
  destruct (eq_str _ "/metrics" && eq_str _ "GET"); [reflexivity|].
  destruct (eq_str _ "/trigger-processing" && eq_str _ "POST"); reflexivity.
Qed.

(** X1: the path [/health] is answered 200 with [status: healthy] and the
    time of the clock whatever the HTTP method and the rest of the event, and
    without any call to a service. *)
Theorem health_answers_any_method (w : world) (d : list (string * pyval)) (table : string) :
  environ w "DYNAMODB_TABLE" = Some table ->
  eq_str (path_of d) "/health" = true ->
  Api.lambda_handler w (PDict d) init
  = (Ok {| statusCode := 200; headers := json_headers;
           body := JsonText (PDict [("status", PStr "healthy");
                                    ("timestamp", PStr (now_isoformat w 0%nat))]) |},
     {| log := []; ticks := 1 |}).
Proof.
  intros Htab Hp. unfold Api.lambda_handler, try_except.
  rewrite (api_dispatch w d table init Htab), Hp. reflexivity.
Qed.

Lemma health_answers_any_method_witness :
  returned (Api.lambda_handler (Sample.world_of [] (Ok tt))
              (PDict [("httpMethod", PStr "DELETE"); ("path", PStr "/health")]) init)
  = Some {| statusCode := 200; headers := json_headers;
            body := JsonText (PDict [("status", PStr "healthy");
                                     ("timestamp", PStr "2024-01-15T10:30:00.000000")]) |}.
Proof.
  rewrite (health_answers_any_method (Sample.world_of [] (Ok tt))
             [("httpMethod", PStr "DELETE"); ("path", PStr "/health")]
             "customer-behavior" eq_refl eq_refl).
  reflexivity.
Defined.

Lemma lacks_customer_id_400 (w : world) (table : string) (d : list (string * pyval))
  (s : state) :
  lacks_customer_id d = true ->
  Api.handle_customer w table (PDict d) s
  = (Ok {| statusCode := 400; headers := [];
           body := error_doc "customer_id parameter required" |}, s).
Proof.
  unfold lacks_customer_id, Api.handle_customer. intros H.
  unfold bind at 1, lift at 1. cbn [get].
  destruct (assoc "queryStringParameters" d) as [q|].
  - destruct (truthy q) eqn:Eq.
    + destruct q as [| | | | | | |params|]; try discriminate.
      unfold bind at 1, lift at 1. cbn [get].
      destruct (assoc "customer_id" params) as [c|].
      * apply negb_true_iff in H. rewrite H. reflexivity.
      * reflexivity.
    + reflexivity.
  - reflexivity.
Qed.

(** X2: [GET /customer] without a usable [customer_id] (no query
    parameters, [None], an empty dict, a missing or empty [customer_id]) is
    answered 400 with [customer_id parameter required], and the table is not
    queried. *)
Theorem customer_without_id_is_400 (w : world) (d : list (string * pyval)) (table : string) :
  environ w "DYNAMODB_TABLE" = Some table ->
  eq_str (path_of d) "/customer" = true ->
  eq_str (method_of d) "GET" = true ->
  lacks_customer_id d = true ->
  Api.lambda_handler w (PDict d) init
  = (Ok {| statusCode := 400; headers := [];
           body := error_doc "customer_id parameter required" |}, init).
Proof.
  intros Htab Hp Hm Hl. unfold Api.lambda_handler, try_except.
  rewrite (api_dispatch w d table init Htab), Hp, Hm.
  destruct (eq_str (path_of d) "/health") eqn:Eh.
  - destruct (path_of d); try discriminate. simpl in Hp, Eh.
    apply String.eqb_eq in Hp, Eh. congruence.
  - cbn [andb]. rewrite (lacks_customer_id_400 w table d init Hl). reflexivity.
Qed.

Lemma customer_without_id_is_400_witness :
  Api.lambda_handler (Sample.world_of Sample.three_sessions (Ok tt))
    (PDict [("path", PStr "/customer"); ("queryStringParameters", PNone)]) init
  = (Ok {| statusCode := 400; headers := [];
           body := error_doc "customer_id parameter required" |}, init).
Proof.
  apply (customer_without_id_is_400 (Sample.world_of Sample.three_sessions (Ok tt))
           [("path", PStr "/customer"); ("queryStringParameters", PNone)]
           "customer-behavior");
    reflexivity.
Defined.

(** X3: a path and method outside the four routes, such as [POST
    /metrics] or [GET /trigger-processing], is answered 404 with [Endpoint not
    found], and no service is called. *)
Theorem unknown_route_is_404 (w : world) (d : list (string * pyval)) (table : string) :
  environ w "DYNAMODB_TABLE" = Some table ->
  known_route (path_of d) (method_of d) = false ->
  Api.lambda_handler w (PDict d) init
  = (Ok {| statusCode := 404; headers := []; body := error_doc "Endpoint not found" |},
     init).
Proof.
  unfold known_route. intros Htab Hk.
  apply orb_false_iff in Hk as [Hk H4].
  apply orb_false_iff in Hk as [Hk H3].
  apply orb_false_iff in Hk as [H1 H2].
  unfold Api.lambda_handler, try_except.
  rewrite (api_dispatch w d table init Htab), H1, H2, H3, H4. reflexivity.
Qed.

Lemma unknown_route_is_404_witness :
  Api.lambda_handler (Sample.world_of [] (Ok tt))
    (PDict [("httpMethod", PStr "POST"); ("path", PStr "/metrics")]) init
  = (Ok {| statusCode := 404; headers := []; body := error_doc "Endpoint not found" |},
     init).
Proof.
  apply (unknown_route_is_404 (Sample.world_of [] (Ok tt))
           [("httpMethod", PStr "POST"); ("path", PStr "/metrics")]
           "customer-behavior");
    reflexivity.
Defined.

Lemma route_customer (d : list (string * pyval)) :
  eq_str (path_of d) "/customer" = true -> eq_str (path_of d) "/health" = false.
Proof.
  destruct (path_of d); try discriminate. simpl. intros H.
  apply String.eqb_eq in H. now subst.
Qed.

Lemma route_metrics (d : list (string * pyval)) :
  eq_str (path_of d) "/metrics" = true ->
  eq_str (path_of d) "/health" = false /\ eq_str (path_of d) "/customer" = false.
Proof.
  destruct (path_of d); try discriminate. simpl. intros H.
  apply String.eqb_eq in H. now subst.
Qed.

Lemma route_trigger (d : list (string * pyval)) :
  eq_str (path_of d) "/trigger-processing" = true ->
  eq_str (path_of d) "/health" = false /\ eq_str (path_of d) "/customer" = false
  /\ eq_str (path_of d) "/metrics" = false.
Proof.
  destruct (path_of d); try discriminate. simpl. intros H.
  apply String.eqb_eq in H. now subst.
Qed.

(** X4: [POST /trigger-processing] invokes [customer-analytics-processor]
    asynchronously with a payload that is an aggregation trigger for the
    processor, and answers 202 with the request identifier of the invocation;
    the API itself reads no table. *)
Theorem trigger_dispatches_an_aggregation
  (w : world) (d : list (string * pyval)) (table request_id : string) :
  environ w "DYNAMODB_TABLE" = Some table ->
  eq_str (path_of d) "/trigger-processing" = true ->
  eq_str (method_of d) "POST" = true ->
  lambda_invoke w "customer-analytics-processor" "Event" (JsonText (PDict trigger_payload))
  = Ok request_id ->
  Api.lambda_handler w (PDict d) init
  = (Ok {| statusCode := 202; headers := [];
           body := JsonText (PDict [("message", PStr "Processing triggered");
                                    ("requestId", PStr request_id)]) |},
     {| log := [CLambdaInvoke "customer-analytics-processor" "Event"
                  (JsonText (PDict trigger_payload))];
        ticks := 0 |})
  /\ aggregate_trigger trigger_payload = true.
Proof.
  intros Htab Hp Hm Hinv. split; [|reflexivity].
  destruct (route_trigger d Hp) as (H1 & H2 & H3).
  unfold Api.lambda_handler, try_except.
  rewrite (api_dispatch w d table init Htab), H1, H2, H3, Hp, Hm. cbn [andb].
  unfold Api.handle_trigger, bind, lift, ret, emit. cbn.
  unfold trigger_payload in Hinv. rewrite Hinv. reflexivity.
Qed.

Lemma trigger_dispatches_an_aggregation_witness :
  returned (Api.lambda_handler (Sample.world_of [] (Ok tt))
              (PDict [("httpMethod", PStr "POST"); ("path", PStr "/trigger-processing")])
              init)
  = Some {| statusCode := 202; headers := [];
            body := JsonText (PDict [("message", PStr "Processing triggered");
                                     ("requestId",
                                      PStr "c6af9ac6-7b61-11e6-9a41-93e8deadbeef")]) |}.
Proof.
  rewrite (proj1 (trigger_dispatches_an_aggregation (Sample.world_of [] (Ok tt))
             [("httpMethod", PStr "POST"); ("path", PStr "/trigger-processing")]
             "customer-behavior" "c6af9ac6-7b61-11e6-9a41-93e8deadbeef"
             eq_refl eq_refl eq_refl eq_refl)).
  reflexivity.
Defined.

(** X5: when the invocation of the processor fails, [POST
    /trigger-processing] is answered 500 with the message of the failure. *)
Theorem dispatch_failure_is_500
  (w : world) (d : list (string * pyval)) (table : string) (e : exn) :
  environ w "DYNAMODB_TABLE" = Some table ->
  eq_str (path_of d) "/trigger-processing" = true ->
  eq_str (method_of d) "POST" = true ->
  lambda_invoke w "customer-analytics-processor" "Event" (JsonText (PDict trigger_payload))
  = Raise e ->
  Api.lambda_handler w (PDict d) init
  = (Ok (error_response e),
     {| log := [CLambdaInvoke "customer-analytics-processor" "Event"
                  (JsonText (PDict trigger_payload));
                CPrint ("ERROR: " ++ exn_msg e)];
        ticks := 0 |}).
Proof.
  intros Htab Hp Hm Hinv.
  destruct (route_trigger d Hp) as (H1 & H2 & H3).
  unfold Api.lambda_handler, try_except.
  rewrite (api_dispatch w d table init Htab), H1, H2, H3, Hp, Hm. cbn [andb].
  unfold Api.handle_trigger, bind, lift, ret, emit. cbn.
  unfold trigger_payload in Hinv. rewrite Hinv. reflexivity.
Qed.

Lemma dispatch_failure_is_500_witness :
  Api.lambda_handler (failing_world throttled)
    (PDict [("httpMethod", PStr "POST"); ("path", PStr "/trigger-processing")]) init
  = (Ok (error_response throttled),
     {| log := [CLambdaInvoke "customer-analytics-processor" "Event"
                  (JsonText (PDict trigger_payload));
                CPrint ("ERROR: " ++ exn_msg throttled)];
        ticks := 0 |}).
Proof.
  apply (dispatch_failure_is_500 (failing_world throttled)
           [("httpMethod", PStr "POST"); ("path", PStr "/trigger-processing")]
           "customer-behavior" throttled);
    reflexivity.
Defined.

(** The run of [GET /metrics] on any dict routed there *)
Lemma metrics_route_run (w : world) (d : list (string * pyval)) (table : string) :
  environ w "DYNAMODB_TABLE" = Some table ->
  eq_str (path_of d) "/metrics" = true ->
  eq_str (method_of d) "GET" = true ->
  Api.handler_try w (PDict d) init
  = match table_scan w table 100 with
    | Ok items =>
        match Api.aggregate w items with
        | Ok fields =>
            (Ok {| statusCode := 200; headers := json_headers;
                   body := metrics_doc w fields |},
             {| log := [CTableScan table 100]; ticks := 1 |})
        | Raise e => (Raise e, {| log := [CTableScan table 100]; ticks := 0 |})
        end
    | Raise e => (Raise e, {| log := [CTableScan table 100]; ticks := 0 |})
    end.
Proof.
  intros Htab Hp Hm. destruct (route_metrics d Hp) as (H1 & H2).
  rewrite (api_dispatch w d table init Htab), H1, H2, Hp, Hm. cbn [andb].
  unfold Api.handle_metrics, bind, lift, ret, emit, now. cbn.
  destruct (table_scan w table 100) as [items|]; [|reflexivity].
  destruct (Api.aggregate w items); reflexivity.
Qed.

(** X6: when the scan of the table fails, [GET /metrics] is answered 500
    with the message of the failure, after the one attempt: nothing is
    retried. *)
Theorem metrics_store_failure_is_500
  (w : world) (d : list (string * pyval)) (table : string) (e : exn) :
  environ w "DYNAMODB_TABLE" = Some table ->
  eq_str (path_of d) "/metrics" = true ->
  eq_str (method_of d) "GET" = true ->
  table_scan w table 100 = Raise e ->
  Api.lambda_handler w (PDict d) init
  = (Ok (error_response e),
     {| log := [CTableScan table 100; CPrint ("ERROR: " ++ exn_msg e)]; ticks := 0 |}).
Proof.
  intros Htab Hp Hm Hscan. unfold Api.lambda_handler, try_except.
  rewrite (metrics_route_run w d table Htab Hp Hm), Hscan. reflexivity.
Qed.

Lemma metrics_store_failure_is_500_witness :
  Api.lambda_handler (failing_world throttled) Sample.metrics_event init
  = (Ok (error_response throttled),
     {| log := [CTableScan "customer-behavior" 100;
                CPrint ("ERROR: " ++ exn_msg throttled)];
        ticks := 0 |}).
Proof.
  apply (metrics_store_failure_is_500 (failing_world throttled)
           [("httpMethod", PStr "GET"); ("path", PStr "/metrics")]
           "customer-behavior" throttled);
    reflexivity.
Defined.

(** X7: when a record of the scanned batch is not a dict, or its
    [cart_value] cannot be converted by [float], [GET /metrics] is answered
    500: no snapshot of the other records is returned and the clock is not
    read. *)
Theorem metrics_bad_record_is_500
  (w : world) (d : list (string * pyval)) (table : string) (items : list pyval) :
  environ w "DYNAMODB_TABLE" = Some table ->
  eq_str (path_of d) "/metrics" = true ->
  eq_str (method_of d) "GET" = true ->
  table_scan w table 100 = Ok items ->
  forallb is_dict items && forallb (cart_value_ok w) items = false ->
  exists e,
    Api.aggregate w items = Raise e
    /\ Api.lambda_handler w (PDict d) init
       = (Ok (error_response e),
          {| log := [CTableScan table 100; CPrint ("ERROR: " ++ exn_msg e)];
             ticks := 0 |}).
Proof.
  intros Htab Hp Hm Hscan Hbad.
  rewrite <- api_aggregate_ok in Hbad.
  destruct (Api.aggregate w items) as [fields|e] eqn:Ea; [discriminate|].
  exists e. split; [reflexivity|].
  unfold Api.lambda_handler, try_except.
  rewrite (metrics_route_run w d table Htab Hp Hm), Hscan, Ea. reflexivity.
Qed.

Lemma metrics_bad_record_is_500_witness :
  exists e,
    Api.aggregate (Sample.world_of [Sample.session "CUST0001" 1 true (Dec 15000 (-2)); null_cart] (Ok tt))
      [Sample.session "CUST0001" 1 true (Dec 15000 (-2)); null_cart] = Raise e
    /\ Api.lambda_handler
         (Sample.world_of [Sample.session "CUST0001" 1 true (Dec 15000 (-2)); null_cart] (Ok tt))
         (PDict [("httpMethod", PStr "GET"); ("path", PStr "/metrics")]) init
       = (Ok (error_response e),
          {| log := [CTableScan "customer-behavior" 100; CPrint ("ERROR: " ++ exn_msg e)];
             ticks := 0 |}).
Proof.
  apply (metrics_bad_record_is_500
           (Sample.world_of [Sample.session "CUST0001" 1 true (Dec 15000 (-2)); null_cart] (Ok tt))
           [("httpMethod", PStr "GET"); ("path", PStr "/metrics")]
           "customer-behavior"
           [Sample.session "CUST0001" 1 true (Dec 15000 (-2)); null_cart]);
    reflexivity.
Defined.

End ApiRoutes.

(** ** The encoder of the customer response *)

Module EncoderFacts.
Import Py Aws Builtins Obs Shape.

(** Induction on values through the lists and dicts they hold *)
Lemma pyval_nested_ind (P : pyval -> Prop) :
  P PNone ->
  (forall b, P (PBool b)) ->
  (forall n, P (PInt n)) ->
  (forall f, P (PFloat f)) ->
  (forall s, P (PStr s)) ->
  (forall d, P (PDecimal d)) ->
  (forall l, Forall P l -> P (PList l)) ->
  (forall d, Forall (fun kv => P (snd kv)) d -> P (PDict d)) ->
  (forall l, P (PSet l)) ->
  forall v, P v.
Proof.
  intros HN HB HI HF HS HD HL HDi HSe.
  fix IH 1. intros [| b | n | f | s | d | l | d | l].
  - exact HN.
  - apply HB.
  - apply HI.
  - apply HF.
  - apply HS.
  - apply HD.
  - apply HL. induction l as [|x r IHr]; constructor; [apply IH | exact IHr].
  - apply HDi. induction d as [|[k x] r IHr]; constructor; [apply IH | exact IHr].
  - apply HSe.
Qed.

Lemma map_result_ok_inv {A B} (f : A -> result B) (l : list A) (l' : list B) :
  map_result f l = Ok l' -> Forall2 (fun x y => f x = Ok y) l l'.
Proof.
  revert l'. induction l as [|x r IH]; simpl; intros l' H.
  - injection H as <-. constructor.
  - destruct (f x) as [y|] eqn:Ey; [|discriminate]. simpl in H.
    destruct (map_result f r) as [r'|] eqn:Er; [|discriminate]. simpl in H.
    injection H as <-. constructor; [exact Ey | now apply IH].
Qed.

Lemma map_result_raise_inv {A B} (f : A -> result B) (l : list A) (e : exn) :
  map_result f l = Raise e -> exists x, In x l /\ f x = Raise e.
Proof.
  induction l as [|x r IH]; simpl; [discriminate|].
  destruct (f x) as [y|e'] eqn:Ey; simpl.
  - destruct (map_result f r) as [r'|e''] eqn:Er; simpl; [discriminate|].
    intros H. injection H as ->. destruct (IH eq_refl) as (z & Hz & Hfz).
    exists z. split; [now right | exact Hfz].
  - intros H. injection H as ->. exists x. split; [now left | exact Ey].
Qed.

Lemma map_result_id {A} (f : A -> result A) (l : list A) :
  Forall (fun x => f x = Ok x) l -> map_result f l = Ok l.
Proof.
  induction 1 as [|x r Hx _ IH]; simpl; [reflexivity|].
  rewrite Hx. simpl. rewrite IH. reflexivity.
Qed.



(** X9: a value without [Decimal] and without set is returned as it is;
    in particular encoding twice is encoding once. *)
Theorem json_native_value_is_unchanged (v : pyval) :
  json_native v = true -> encode_decimal v = Ok v.
Proof.
  induction v as [| b | n | f | s | d | l IH | d IH | l]
    using pyval_nested_ind; intros H; simpl in H; try reflexivity; try discriminate.
  - simpl. rewrite (map_result_id encode_decimal l); [reflexivity|].
    rewrite forallb_forall in H. rewrite Forall_forall in *.
    intros x Hx. apply IH; [exact Hx | now apply H].
  - simpl. rewrite map_result_id; [reflexivity|].
    rewrite forallb_forall in H. rewrite Forall_forall in *.
    intros [k x] Hx. pose proof (IH _ Hx (H _ Hx)) as E.
    cbn [snd] in E. rewrite E. reflexivity.
Qed.

Lemma json_native_value_is_unchanged_witness :
  encode_decimal (PDict [("status", PStr "healthy"); ("sessions", PList [PInt 3; PNone])])
  = Ok (PDict [("status", PStr "healthy"); ("sessions", PList [PInt 3; PNone])]).
Proof.
  apply (json_native_value_is_unchanged
           (PDict [("status", PStr "healthy"); ("sessions", PList [PInt 3; PNone])])).
  reflexivity.
Defined.

(** The encoder raises one exception only. *)
Lemma encode_raises_set_error (v : pyval) (e : exn) :
  encode_decimal v = Raise e -> e = set_not_serializable /\ has_set v = true.
Proof.
  induction v as [| b | n | f | s | d | l IH | d IH | l]
    using pyval_nested_ind; intros H; simpl in H; try discriminate.
  - destruct (map_result encode_decimal l) as [l'|e'] eqn:El; [discriminate|].
    simpl in H. injection H as ->.
    apply map_result_raise_inv in El as (x & Hx & Hfx).
    rewrite Forall_forall in IH. destruct (IH x Hx Hfx) as [-> Hs].
    split; [reflexivity|]. simpl. apply existsb_exists. eauto.
  - destruct (map_result _ d) as [d'|e'] eqn:Ed; [discriminate|].
    simpl in H. injection H as ->.
    apply map_result_raise_inv in Ed as ([k x] & Hx & Hfx).
    destruct (encode_decimal x) as [x'|e''] eqn:Ex; [discriminate|].
    simpl in Hfx. injection Hfx as ->.
    rewrite Forall_forall in IH. destruct (IH _ Hx Ex) as [-> Hs].
    split; [reflexivity|]. simpl. apply existsb_exists. exists (k, x). eauto.
  - injection H as <-. split; reflexivity.
Qed.

Lemma forall2_in_left {A B} (R : A -> B -> Prop) (l : list A) (l' : list B) (x : A) :
  Forall2 R l l' -> In x l -> exists y, In y l' /\ R x y.
Proof.
  induction 1 as [|a b r r' Hab _ IH]; intros Hx; [contradiction|].
  destruct Hx as [<-|Hx].
  - exists b. split; [now left | exact Hab].
  - destruct (IH Hx) as (y & Hy & Hr). exists y. split; [now right | exact Hr].
Qed.

Lemma encode_ok_no_set (v v' : pyval) : encode_decimal v = Ok v' -> has_set v = false.
Proof.
  revert v'. induction v as [| b | n | f | s | d | l IH | d IH | l]
    using pyval_nested_ind; intros v' H; simpl in H; try reflexivity; try discriminate.
  - destruct (map_result encode_decimal l) as [l'|] eqn:El; [|discriminate].
    apply map_result_ok_inv in El. simpl.
    apply not_true_is_false. intros Hex. apply existsb_exists in Hex as (x & Hx & Hsx).
    rewrite Forall_forall in IH.
    destruct (forall2_in_left _ _ _ _ El Hx) as (y & _ & Hy).
    rewrite (IH x Hx y Hy) in Hsx. discriminate.
  - destruct (map_result _ d) as [d'|] eqn:Ed; [|discriminate].
    apply map_result_ok_inv in Ed. simpl.
    apply not_true_is_false. intros Hex. apply existsb_exists in Hex as ([k x] & Hx & Hsx).
    rewrite Forall_forall in IH.
    destruct (forall2_in_left _ _ _ _ Ed Hx) as (y & _ & Hy).
    cbn in Hy. destruct (encode_decimal x) as [x'|] eqn:Ex; [|discriminate].
    pose proof (IH _ Hx x' Ex) as E. cbn [snd] in E, Hsx. congruence.
Qed.

Lemma encode_set_raises (v : pyval) :
  has_set v = true -> encode_decimal v = Raise set_not_serializable.
Proof.
  intros H. destruct (encode_decimal v) as [v'|e] eqn:E.
  - apply encode_ok_no_set in E. congruence.
  - apply encode_raises_set_error in E as [-> _]. reflexivity.
Qed.

(** X10: the encoder fails exactly on the values that hold a set at some
    depth, and then with [Object of type set is not JSON serializable]. *)
Theorem encoder_fails_exactly_on_sets (v : pyval) :
  encode_decimal v = Raise set_not_serializable <-> has_set v = true.
Proof.
  split.
  - intros H. now apply encode_raises_set_error in H.
  - intros H. destruct (encode_decimal v) as [v'|e] eqn:E.
    + apply encode_ok_no_set in E. congruence.
    + apply encode_raises_set_error in E as [-> _]. reflexivity.
Qed.

End EncoderFacts.

(** ** The customer route and the effects of the API *)

Module ApiEffects.
Import Py Aws Builtins Obs Shape ApiRoutes EncoderFacts.

(** The run of [GET /customer] for a request that carries a
    [customer_id] *)
Lemma customer_route_run (w : world) (d : list (string * pyval)) (table : string)
  (cid : pyval) :
  environ w "DYNAMODB_TABLE" = Some table ->
  eq_str (path_of d) "/customer" = true ->
  eq_str (method_of d) "GET" = true ->
  customer_id_of d = Some cid ->
  Api.handler_try w (PDict d) init
  = let s := {| log := [CTableQuery table cid]; ticks := 0 |} in
    match table_query w table cid with
    | Ok out =>
        match encode_decimal (PDict [("customer_id", cid);
                                     ("sessions", PList (q_items out));
                                     ("total_sessions", PInt (q_count out))]) with
        | Ok doc => (Ok {| statusCode := 200; headers := json_headers;
                           body := JsonText doc |}, s)
        | Raise e => (Raise e, s)
        end
    | Raise e => (Raise e, s)
    end.
Proof.
  intros Htab Hp Hm Hc. unfold customer_id_of in Hc.
  rewrite (api_dispatch w d table init Htab), (route_customer d Hp), Hp, Hm.
  cbn [andb]. unfold Api.handle_customer.
  unfold bind at 1, lift at 1. cbn [get].
  destruct (assoc "queryStringParameters" d) as [q|]; [|discriminate].
  destruct q as [| | | | | | |params|]; try discriminate.
  destruct (assoc "customer_id" params) as [c|] eqn:Ec; [|discriminate].
  destruct (truthy c) eqn:Et; [|discriminate]. injection Hc as <-.
  assert (Hq : truthy (PDict params) = true).
  { destruct params; [discriminate | reflexivity]. }
  rewrite Hq. unfold bind at 1, lift at 1. cbn [get]. rewrite Ec, Et. cbn [negb].
  unfold bind, lift, ret, emit, init. cbn [log ticks app].
  destruct (table_query w table c) as [out|]; [|reflexivity].
  destruct (encode_decimal (PDict _)); reflexivity.
Qed.

(** X11: when the query of the table fails, [GET /customer] is answered
    500 with the message of the failure, after the one attempt. *)
Theorem customer_store_failure_is_500
  (w : world) (d : list (string * pyval)) (table : string) (cid : pyval) (e : exn) :
  environ w "DYNAMODB_TABLE" = Some table ->
  eq_str (path_of d) "/customer" = true ->
  eq_str (method_of d) "GET" = true ->
  customer_id_of d = Some cid ->
  table_query w table cid = Raise e ->
  Api.lambda_handler w (PDict d) init
  = (Ok (error_response e),
     {| log := [CTableQuery table cid; CPrint ("ERROR: " ++ exn_msg e)]; ticks := 0 |}).
Proof.
  intros Htab Hp Hm Hc Hq. unfold Api.lambda_handler, try_except.
  rewrite (customer_route_run w d table cid Htab Hp Hm Hc). cbv zeta.
  rewrite Hq. reflexivity.
Qed.

Lemma customer_store_failure_is_500_witness :
  Api.lambda_handler (failing_world throttled) (Sample.customer_event "CUST0001") init
  = (Ok (error_response throttled),
     {| log := [CTableQuery "customer-behavior" (PStr "CUST0001");
                CPrint ("ERROR: " ++ exn_msg throttled)];
        ticks := 0 |}).
Proof.
  apply (customer_store_failure_is_500 (failing_world throttled)
           [("httpMethod", PStr "GET"); ("path", PStr "/customer");
            ("queryStringParameters", PDict [("customer_id", PStr "CUST0001")])]
           "customer-behavior" (PStr "CUST0001") throttled);
    reflexivity.
Defined.

(** X12: when an item the table returns holds a set at some depth,
    [GET /customer] is answered 500 with [Object of type set is not JSON
    serializable]: the sessions of that customer cannot be read through the
    API. *)
Theorem customer_with_set_attribute_is_500
  (w : world) (d : list (string * pyval)) (table : string) (cid : pyval)
  (out : query_output) :
  environ w "DYNAMODB_TABLE" = Some table ->
  eq_str (path_of d) "/customer" = true ->
  eq_str (method_of d) "GET" = true ->
  customer_id_of d = Some cid ->
  table_query w table cid = Ok out ->
  existsb has_set (q_items out) = true ->
  Api.lambda_handler w (PDict d) init
  = (Ok (error_response set_not_serializable),
     {| log := [CTableQuery table cid;
                CPrint ("ERROR: " ++ exn_msg set_not_serializable)];
        ticks := 0 |}).
Proof.
  intros Htab Hp Hm Hc Hq Hset. unfold Api.lambda_handler, try_except.
  rewrite (customer_route_run w d table cid Htab Hp Hm Hc). cbv zeta.
  rewrite Hq, encode_set_raises; [reflexivity|].
  cbn [has_set existsb snd]. rewrite Hset. now rewrite orb_true_r.
Qed.

Lemma customer_with_set_attribute_is_500_witness :
  Api.lambda_handler (Sample.world_of [tagged] (Ok tt)) (Sample.customer_event "CUST0008") init
  = (Ok (error_response set_not_serializable),
     {| log := [CTableQuery "customer-behavior" (PStr "CUST0008");
                CPrint ("ERROR: " ++ exn_msg set_not_serializable)];
        ticks := 0 |}).
Proof.
  apply (customer_with_set_attribute_is_500 (Sample.world_of [tagged] (Ok tt))
           [("httpMethod", PStr "GET"); ("path", PStr "/customer");
            ("queryStringParameters", PDict [("customer_id", PStr "CUST0008")])]
           "customer-behavior" (PStr "CUST0008")
           {| q_items := [tagged]; q_count := 1 |});
    reflexivity.
Defined.

Lemma handle_customer_calls (w : world) (table : string) (event : pyval) (s : state) :
  one_api_call s (snd (Api.handle_customer w table event s)).
Proof.
  unfold Api.handle_customer, bind, lift, ret, emit.
  destruct (get event "queryStringParameters" (PDict [])) as [qsp|]; [|now left].
  destruct (get (if truthy qsp then qsp else PDict []) "customer_id" PNone)
    as [cid|]; [|now left].
  destruct (truthy cid); cbn [negb]; [|now left].
  right. exists (CTableQuery table cid).
  destruct (table_query w table cid) as [out|]; [|now repeat split].
  destruct (encode_decimal (PDict _)); now repeat split.
Qed.

Lemma handle_metrics_calls (w : world) (table : string) (s : state) :
  one_api_call s (snd (Api.handle_metrics w table s)).
Proof.
  unfold Api.handle_metrics, bind, lift, ret, emit, now.
  right. exists (CTableScan table 100). cbn.
  destruct (table_scan w table 100) as [items|]; [|now repeat split].
  destruct (Api.aggregate w items); now repeat split.
Qed.

Lemma handle_trigger_calls (w : world) (s : state) :
  one_api_call s (snd (Api.handle_trigger w s)).
Proof.
  unfold Api.handle_trigger, bind, lift, ret, emit.
  right. eexists. cbn.
  destruct (lambda_invoke w _ _ _); now repeat split.
Qed.

Lemma handler_try_calls (w : world) (event : pyval) (s : state) :
  one_api_call s (snd (Api.handler_try w event s)).
Proof.
  unfold Api.handler_try, Api.dynamodb_Table.
  unfold bind at 1, lift at 1.
  destruct (get event "httpMethod" (PStr "GET")) as [http_method|]; [|now left].
  unfold bind at 1, lift at 1.
  destruct (get event "path" (PStr "/")) as [path|]; [|now left].
  unfold bind at 1.
  destruct (environ w "DYNAMODB_TABLE") as [table|]; [|now left].
  unfold ret at 1.
  destruct (eq_str path "/health"); [now left|].
  destruct (eq_str path "/customer" && eq_str http_method "GET");
    [apply handle_customer_calls|].
  destruct (eq_str path "/metrics" && eq_str http_method "GET");
    [apply handle_metrics_calls|].
  destruct (eq_str path "/trigger-processing" && eq_str http_method "POST");
    [apply handle_trigger_calls|].
  now left.
Qed.

(** X13: whatever the event and whatever the services answer, one run of
    the API calls at most one service, and never S3: its log holds only
    prints, table reads and the invocation of the processor. *)
Theorem api_calls_one_service_and_never_s3 (w : world) (event : pyval) :
  forallb api_call (log (snd (Api.lambda_handler w event init))) = true
  /\ existsb is_s3_call (log (snd (Api.lambda_handler w event init))) = false
  /\ (service_calls (log (snd (Api.lambda_handler w event init))) <= 1)%nat.
Proof.
  pose proof (handler_try_calls w event init) as H.
  unfold Api.lambda_handler, try_except, Api.handler_except, bind, emit, ret.
  destruct (Api.handler_try w event init) as [[resp|e] s'];
    cbn [snd log] in *;
    destruct H as [H | (c & H & Hc & Hp)]; rewrite H; cbn [init log app];
    try (destruct c; try discriminate; cbn; repeat split; auto);
    cbn; repeat split; auto.
Qed.

End ApiEffects.

(** ** The paths of the processor *)

Module ProcessorRoutes.
Import Py Aws Builtins Obs Shape CountFacts ProcessorFacts.

(** X14: when the snapshot of an aggregation trigger is computed and
    [put_object] returns, the processor answers 200 with the snapshot, and the
    document it wrote to S3, under [metrics/<time>_metrics.json] in the
    configured bucket, is the body it returns. *)
Theorem published_snapshot_is_the_response
  (w : world) (d : list (string * pyval)) (bucket table : string)
  (items : list pyval) (fields : list (string * pyval)) :
  aggregate_trigger d = true ->
  environ w "S3_BUCKET" = Some bucket ->
  environ w "DYNAMODB_TABLE" = Some table ->
  table_scan w table 100 = Ok items ->
  Processor.aggregate items = Ok fields ->
  s3_put_object w bucket (metrics_key w) (metrics_doc w fields) "application/json"
  = Ok tt ->
  Processor.lambda_handler w (PDict d) init
  = (Ok {| statusCode := 200; headers := []; body := metrics_doc w fields |},
     {| log := [CTableScan table 100;
                CS3PutObject bucket (metrics_key w) (metrics_doc w fields)
                  "application/json"];
        ticks := 2 |}).
Proof.
  intros Ht Hb Htab Hscan Hagg Hput.
  unfold Processor.lambda_handler, try_except.
  rewrite (aggregate_run w d bucket table items fields Ht Hb Htab Hscan Hagg).
  cbv zeta. rewrite Hput. reflexivity.
Qed.

Lemma published_snapshot_is_the_response_witness :
  body_field "total_conversions"
    (Processor.lambda_handler Sample.granted_world Sample.aggregate_event init)
  = Some (PInt 1).
Proof.
  unfold Sample.aggregate_event.
  rewrite (published_snapshot_is_the_response Sample.granted_world
             [("action", PStr "aggregate")]
             "customer-analytics-data" "customer-behavior" Sample.three_sessions
             [("total_sessions", PInt 3);
              ("total_conversions", PInt 1);
              ("conversion_rate", PFloat (fmul (int_truediv 1 3) (float_of_Z 100)))]);
    reflexivity.
Defined.

(** X15: when the scan fails, an aggregation trigger is answered 500 with
    the message of the failure and nothing is written to S3. *)
Theorem aggregation_scan_failure_publishes_nothing
  (w : world) (d : list (string * pyval)) (table : string) (e : exn) :
  aggregate_trigger d = true ->
  environ w "DYNAMODB_TABLE" = Some table ->
  table_scan w table 100 = Raise e ->
  Processor.lambda_handler w (PDict d) init
  = (Ok (error_response e),
     {| log := [CTableScan table 100; CPrint ("ERROR: " ++ exn_msg e)]; ticks := 0 |}).
Proof.
  unfold aggregate_trigger. intros Ht Htab Hscan.
  destruct (assoc "Records" d) eqn:ER; [discriminate|].
  destruct (assoc "action" d) as [a|] eqn:EA; [|discriminate].
  unfold Processor.lambda_handler, try_except, Processor.handler_try,
    Processor.handle_action, Processor.handle_aggregate,
    Api.dynamodb_Table, bind, lift, ret, emit, now, init.
  simpl. rewrite ER, EA. simpl. rewrite Ht, Htab. simpl.
  rewrite Hscan. reflexivity.
Qed.

Lemma aggregation_scan_failure_publishes_nothing_witness :
  Processor.lambda_handler (failing_world throttled) Sample.aggregate_event init
  = (Ok (error_response throttled),
     {| log := [CTableScan "customer-behavior" 100;
                CPrint ("ERROR: " ++ exn_msg throttled)];
        ticks := 0 |}).
Proof.
  apply (aggregation_scan_failure_publishes_nothing (failing_world throttled)
           [("action", PStr "aggregate")] "customer-behavior" throttled);
    reflexivity.
Defined.

(** The loop at the first record that names an object that cannot be
    read *)
Lemma process_records_read_failure (w : world) (pre post : list pyval) (record : pyval)
  (bucket key : string) (e : exn) (s : state) :
  forallb lacks_s3 pre = true ->
  s3_target record = Some (bucket, key) ->
  s3_get_object w bucket key = Raise e ->
  Processor.process_records w (pre ++ record :: post) s
  = (Raise e, {| log := log s ++ [CS3GetObject bucket key]; ticks := ticks s |}).
Proof.
  intros Hpre Ht Hget.
  induction pre as [|r pre IH].
  - destruct (s3_target_getitems _ _ _ Ht) as (s3 & b & o & Hc & H1 & H2 & H3 & H4 & H5).
    cbn [app Processor.process_records].
    unfold bind, lift, ret, emit, Processor.s3_get.
    rewrite Hc, H1, H2, H3, H4, H5. cbn. rewrite Hget. reflexivity.
  - cbn [forallb] in Hpre. apply andb_prop in Hpre as [Hr Hpre].
    cbn [app Processor.process_records]. unfold bind at 1, lift.
    unfold lacks_s3 in Hr.
    destruct (contains "s3" r) as [[|]|]; try discriminate.
    now apply IH.
Qed.

(** X16: when the object a storage event names cannot be read, the
    processor answers 500 with the message of the failure; the handler ends
    there, so an ["aggregate"] action in the same event is not run. *)
Theorem unreadable_object_is_500
  (w : world) (d : list (string * pyval)) (pre post : list pyval) (record : pyval)
  (bucket key : string) (e : exn) :
  assoc "Records" d = Some (PList (pre ++ record :: post)) ->
  forallb lacks_s3 pre = true ->
  s3_target record = Some (bucket, key) ->
  s3_get_object w bucket key = Raise e ->
  Processor.lambda_handler w (PDict d) init
  = (Ok (error_response e),
     {| log := [CS3GetObject bucket key; CPrint ("ERROR: " ++ exn_msg e)]; ticks := 0 |}).
Proof.
  intros HR Hpre Ht Hget.
  unfold Processor.lambda_handler, try_except, Processor.handler_try.
  unfold bind at 1, lift at 1. cbn [contains]. rewrite HR.
  unfold bind at 1. unfold bind at 1, lift at 1. cbn [getitem]. rewrite HR.
  unfold bind at 1, lift at 1. cbn [iter].
  rewrite (process_records_read_failure w pre post record bucket key e init Hpre Ht Hget).
  reflexivity.
Qed.

Lemma unreadable_object_is_500_witness :
  Processor.lambda_handler (failing_world Sample.access_denied)
    (PDict [("Records",
             PList [PDict [("s3", PDict [("bucket", PDict [("name", PStr "raw")]);
                                         ("object", PDict [("key", PStr "a.csv")])])]]);
            ("action", PStr "aggregate")])
    init
  = (Ok (error_response Sample.access_denied),
     {| log := [CS3GetObject "raw" "a.csv";
                CPrint ("ERROR: " ++ exn_msg Sample.access_denied)];
        ticks := 0 |}).
Proof.
  apply (unreadable_object_is_500 (failing_world Sample.access_denied)
           [("Records",
             PList [PDict [("s3", PDict [("bucket", PDict [("name", PStr "raw")]);
                                         ("object", PDict [("key", PStr "a.csv")])])]]);
            ("action", PStr "aggregate")]
           [] []
           (PDict [("s3", PDict [("bucket", PDict [("name", PStr "raw")]);
                                 ("object", PDict [("key", PStr "a.csv")])])])
           "raw" "a.csv" Sample.access_denied);
    reflexivity.
Defined.

End ProcessorRoutes.

(** ** The effects of the processor *)

Module ProcessorEffects.
Import Py Aws Builtins Obs Shape CountFacts ProcessorFacts.

Ltac nothing_added :=
  solve [exists []; cbn; rewrite ?app_nil_r; repeat split; auto].

(** The loop adds to the log what [records_added] allows and leaves the
    clock alone. *)
Lemma process_records_effects (w : world) (l : list pyval) (s : state) :
  exists added,
    log (snd (Processor.process_records w l s)) = (log s ++ added)%list
    /\ ticks (snd (Processor.process_records w l s)) = ticks s
    /\ records_added (fst (Processor.process_records w l s)) added.
Proof.
  induction l as [|record rest IH]; cbn [Processor.process_records].
  - nothing_added.
  - unfold bind at 1, lift at 1.
    destruct (contains "s3" record) as [[|]|]; [| exact IH | nothing_added].
    unfold bind, lift, ret, emit, Processor.s3_get.
    destruct (getitem record "s3") as [s3|]; [|nothing_added].
    destruct (getitem s3 "bucket") as [b|]; [|nothing_added].
    destruct (getitem b "name") as [bucket|]; [|nothing_added].
    destruct (getitem s3 "object") as [o|]; [|nothing_added].
    destruct (getitem o "key") as [key|]; [|nothing_added].
    destruct bucket as [| | | |bucket| | | |]; try nothing_added.
    destruct key as [| | | |key| | | |]; try nothing_added.
    cbn. destruct (s3_get_object w bucket key) as [data|].
    + eexists. cbn. rewrite <- app_assoc. split; [reflexivity|].
      split; [reflexivity|]. split; [reflexivity|].
      do 3 eexists. reflexivity.
    + exists [CS3GetObject bucket key]. cbn. repeat split. right. eauto.
Qed.

(** The part after the loop adds what [action_added] allows. *)
Lemma handle_action_effects (w : world) (bucket_name table_name : option string)
  (event : pyval) (s : state) :
  exists added,
    log (snd (Processor.handle_action w bucket_name table_name event s))
    = (log s ++ added)%list
    /\ action_added (asks_aggregate event)
         (fst (Processor.handle_action w bucket_name table_name event s)) added.
Proof.
  destruct (Processor.handle_action w bucket_name table_name event s) as [r s'] eqn:E.
  cbn [fst snd]. unfold asks_aggregate. revert E. unfold Processor.handle_action. unfold bind at 1, lift at 1.
  destruct (contains "action" event) as [[|]|]; try (intros [= <- <-]; nothing_added).
  unfold bind at 1, lift at 1.
  destruct (getitem event "action") as [a|]; [|intros [= <- <-]; nothing_added].
  destruct (eq_str a "aggregate"); [|intros [= <- <-]; nothing_added].
  unfold Processor.handle_aggregate, Api.dynamodb_Table, Processor.s3_put,
    bind, lift, ret, emit, now.
  destruct table_name as [table|]; [|intros [= <- <-]; nothing_added].
  cbn. destruct (table_scan w table 100) as [items|].
  - destruct (Processor.aggregate items) as [fields|].
    + destruct bucket_name as [bucket|].
      * cbn. destruct (s3_put_object w bucket _ _ _) as [[]|];
          intros [= <- <-]; eexists; cbn; rewrite <- app_assoc;
          (split; [reflexivity|]); cbn.
        -- split; [reflexivity|]. right. split; [reflexivity|].
           do 4 eexists. split; reflexivity.
        -- right. split; [reflexivity|]. eexists. right. eauto.
      * intros [= <- <-]. exists [CTableScan table 100]. cbn. split; [reflexivity|].
        right. split; [reflexivity|]. eauto.
    + intros [= <- <-]. exists [CTableScan table 100]. cbn. split; [reflexivity|].
      right. split; [reflexivity|]. eauto.
  - intros [= <- <-]. exists [CTableScan table 100]. cbn. split; [reflexivity|].
    right. split; [reflexivity|]. eauto.
Qed.

(** How the [try] of the processor ends: in the loop over the records, or
    after it. *)
Lemma handler_try_cases (w : world) (event : pyval) :
  records_ended (fst (Processor.handler_try w event init))
    (log (snd (Processor.handler_try w event init)))
  \/ action_added (asks_aggregate event) (fst (Processor.handler_try w event init))
       (log (snd (Processor.handler_try w event init))).
Proof.
  destruct (Processor.handler_try w event init) as [r s'] eqn:E.
  cbn [fst snd]. revert E. unfold Processor.handler_try.
  unfold bind at 1, lift at 1.
  destruct (contains "Records" event) as [[|]|].
  - unfold bind at 1. unfold bind at 1, lift at 1.
    destruct (getitem event "Records") as [records|];
      [|intros [= <- <-]; right; now left].
    unfold bind at 1, lift at 1.
    destruct (iter records) as [l|]; [|intros [= <- <-]; right; now left].
    destruct (process_records_effects w l init) as (added & Hlog & _ & Hadd).
    destruct (Processor.process_records w l init) as [[[resp|]|e] s1];
      cbn [fst snd init log app] in *.
    + intros [= <- <-]. left. rewrite Hlog. exact Hadd.
    + rewrite Hadd in Hlog. clear Hadd added.
      destruct (handle_action_effects w (environ w "S3_BUCKET")
                  (environ w "DYNAMODB_TABLE") event s1) as (added & Hl & Ha).
      intros E. rewrite E in Hl, Ha. cbn [fst snd] in Hl, Ha.
      right. rewrite Hl, Hlog. exact Ha.
    + intros [= <- <-]. rewrite Hlog. destruct Hadd as [-> | Hadd].
      * right. now left.
      * left. exact Hadd.
  - unfold bind at 1, ret at 1.
    destruct (handle_action_effects w (environ w "S3_BUCKET")
                (environ w "DYNAMODB_TABLE") event init) as (added & Hl & Ha).
    intros E. rewrite E in Hl, Ha. cbn [fst snd init log app] in Hl, Ha.
    right. rewrite Hl. exact Ha.
  - intros [= <- <-]. right. now left.
Qed.

(** X17: whatever the event and whatever the services answer, the
    processor returns a response with status 200 or 500 and raises nothing;
    one run calls at most two services, and never queries a partition of the
    table nor invokes a function. *)
Theorem processor_always_answers_200_or_500 (w : world) (event : pyval) :
  exists (resp : response) (s' : state),
    Processor.lambda_handler w event init = (Ok resp, s')
    /\ (statusCode resp = 200 \/ statusCode resp = 500)
    /\ forallb processor_call (log s') = true
    /\ (service_calls (log s') <= 2)%nat.
Proof.
  pose proof (handler_try_cases w event) as H.
  unfold Processor.lambda_handler, try_except, Api.handler_except, bind, emit, ret.
  destruct (Processor.handler_try w event init) as [[resp|e] s1];
    cbn [fst snd] in H; do 2 eexists; (split; [reflexivity|]); cbn [statusCode log].
  - destruct H as [[Hs (b & k & m & ->)] | [Hs [-> | (_ & t & b & k & doc & -> & _)]]];
      cbn; auto.
  - destruct H as [(b & k & ->) | [-> | (_ & t & [-> | (b & k & doc & ->)])]];
      cbn; auto.
Qed.

(** X18: the processor writes to S3 only when the event's [action] is
    ["aggregate"]: a run whose log holds a [put_object] comes from an event in
    which ['action' in event] holds and [event['action']] equals
    ["aggregate"]. *)
Theorem only_an_aggregate_action_writes (w : world) (event : pyval) :
  existsb is_write (log (snd (Processor.lambda_handler w event init))) = true ->
  asks_aggregate event = true.
Proof.
  pose proof (handler_try_cases w event) as H.
  unfold Processor.lambda_handler, try_except, Api.handler_except, bind, emit, ret.
  destruct (Processor.handler_try w event init) as [[resp|e] s1];
    cbn [fst snd log] in *.
  - destruct H as [[Hs (b & k & m & ->)] | [Hs [-> | (Ha & _)]]];
      cbn; try discriminate. intros _. exact Ha.
  - destruct H as [(b & k & ->) | [-> | (Ha & _)]];
      cbn; try discriminate. intros _. exact Ha.
Qed.

Lemma only_an_aggregate_action_writes_witness :
  asks_aggregate Sample.aggregate_event = true.
Proof.
  apply (only_an_aggregate_action_writes Sample.granted_world Sample.aggregate_event).
  vm_compute. reflexivity.
Defined.

End ProcessorEffects.

(** ** Counts, rates and record counts *)

Module AggregateFacts.
Import Py Aws Builtins Obs Shape CountFacts ProcessorFacts.

(** X19: in every snapshot the API computes, [total_sessions] is the
    number of records of the batch and [conversions] lies between 0 and
    [total_sessions]. *)
Theorem snapshot_counts_are_bounded (w : world) (items : list pyval)
  (fs : list (string * pyval)) :
  Api.aggregate w items = Ok fs ->
  exists c,
    assoc "total_sessions" fs = Some (PInt (len items))
    /\ assoc "conversions" fs = Some (PInt c)
    /\ 0 <= c <= len items.
Proof.
  intros H. apply api_aggregate_inv in H as (rev & _ & _ & ->).
  exists (tally items). split; [reflexivity|]. split; [reflexivity|].
  apply tally_bounds.
Qed.

Lemma snapshot_counts_are_bounded_witness :
  exists c,
    assoc "total_sessions"
      [("total_sessions", PInt 3); ("conversions", PInt 1);
       ("conversion_rate", PFloat (float_of_decimal (Dec 3333 (-2))));
       ("total_revenue", PFloat (float_of_Z 150));
       ("avg_cart_value", PFloat (float_of_Z 150))]
    = Some (PInt (len Sample.three_sessions))
    /\ assoc "conversions"
         [("total_sessions", PInt 3); ("conversions", PInt 1);
          ("conversion_rate", PFloat (float_of_decimal (Dec 3333 (-2))));
          ("total_revenue", PFloat (float_of_Z 150));
          ("avg_cart_value", PFloat (float_of_Z 150))]
       = Some (PInt c)
    /\ 0 <= c <= len Sample.three_sessions.
Proof.
  apply (snapshot_counts_are_bounded (Sample.world_of [] (Ok tt)) Sample.three_sessions).
  vm_compute. reflexivity.
Defined.





(** X21: the processor computes its snapshot for every batch of dicts: it
    never reads [cart_value], so a batch the API rejects for a cart value is
    still aggregated; and it raises as soon as one item is not a dict. *)
Theorem processor_snapshot_needs_only_dicts (items : list pyval) :
  (forallb is_dict items = true ->
   Processor.aggregate items
   = Ok [("total_sessions", PInt (len items));
         ("total_conversions", PInt (tally items));
         ("conversion_rate",
          pyval_of_num (Processor.rate_of (tally items) (len items)))])
  /\ (forallb is_dict items = false -> is_ok (Processor.aggregate items) = false).
Proof.
  unfold Processor.aggregate. rewrite count_converted_same. split; intros H.
  - rewrite (api_count_dicts items H). reflexivity.
  - rewrite <- api_count_ok in H.
    destruct (Api.count_converted items); [discriminate | reflexivity].
Qed.

Lemma processor_snapshot_needs_only_dicts_witness :
  Processor.aggregate [Sample.session "CUST0001" 1 true (Dec 15000 (-2)); null_cart]
  = Ok [("total_sessions", PInt 2);
        ("total_conversions", PInt 2);
        ("conversion_rate", PFloat (float_of_Z 100))].
Proof.
  rewrite (proj1 (processor_snapshot_needs_only_dicts
                    [Sample.session "CUST0001" 1 true (Dec 15000 (-2)); null_cart])
                 eq_refl).
  vm_compute. reflexivity.
Defined.

Lemma count_newlines_app (a b : string) :
  count_newlines (a ++ b) = count_newlines a + count_newlines b.
Proof.
  induction a as [|c a IH]; cbn [String.append count_newlines]; [reflexivity|].
  rewrite IH. lia.
Qed.

Lemma count_newlines_nonneg (a : string) : 0 <= count_newlines a.
Proof.
  induction a as [|c a IH]; cbn [count_newlines]; [lia|].
  destruct (Ascii.eqb c newline); lia.
Qed.

Lemma record_count_newlines (data : string) :
  Processor.record_count_of data = count_newlines data.
Proof. unfold Processor.record_count_of. rewrite split_lines_length. lia. Qed.

(** X22: the record count of an object is never negative, it is additive
    over a line break, and a text that ends with a line break is counted one
    record more than the same text without it. *)
Theorem record_count_follows_line_breaks (a b : string) :
  0 <= Processor.record_count_of a
  /\ Processor.record_count_of (a ++ Sample.lf ++ b)
     = Processor.record_count_of a + 1 + Processor.record_count_of b
  /\ Processor.record_count_of (a ++ Sample.lf) = Processor.record_count_of a + 1.
Proof.
  rewrite !record_count_newlines, !count_newlines_app.
  assert (Hlf : count_newlines Sample.lf = 1) by reflexivity.
  rewrite Hlf. pose proof (count_newlines_nonneg a). lia.
Qed.

End AggregateFacts.

(** ** Malformed storage events *)

Module RecordFacts.
Import Py Aws Builtins Obs Shape ProcessorFacts.

(** A record that holds ['s3'] without naming a bucket and a key as
    strings makes the loop raise before any object is read. *)
Lemma malformed_record_raises (w : world) (record : pyval) (rest : list pyval) (s : state) :
  contains "s3" record = Ok true ->
  s3_target record = None ->
  exists e, Processor.process_records w (record :: rest) s = (Raise e, s).
Proof.
  intros Hc Ht. cbn [Processor.process_records].
  unfold bind at 1, lift at 1. rewrite Hc.
  unfold bind, lift, ret, emit, Processor.s3_get.
  destruct record as [| | | |t|dd|l|r|l]; cbn in Hc |- *; try discriminate;
    try (eexists; reflexivity).
  unfold s3_target in Ht.
  destruct (assoc "s3" r) as [s3|]; [|discriminate].
  destruct s3 as [| | | | | | |s3|]; cbn; try (eexists; reflexivity).
  destruct (assoc "bucket" s3) as [b|]; cbn; [|eexists; reflexivity].
  destruct b as [| | | | | | |b|]; cbn; try (eexists; reflexivity).
  destruct (assoc "name" b) as [bucket|]; cbn; [|eexists; reflexivity].
  destruct (assoc "object" s3) as [o|]; cbn; [|eexists; reflexivity].
  destruct o as [| | | | | | |o|]; cbn; try (eexists; reflexivity).
  destruct (assoc "key" o) as [key|]; cbn; [|eexists; reflexivity].
  destruct bucket as [| | | |bucket| | | |]; cbn; try (eexists; reflexivity).
  destruct key as [| | | |key| | | |]; cbn; try (eexists; reflexivity).
  discriminate.
Qed.

Lemma process_records_skip (w : world) (pre rest : list pyval) (s : state) :
  forallb lacks_s3 pre = true ->
  Processor.process_records w (pre ++ rest) s = Processor.process_records w rest s.
Proof.
  induction pre as [|r pre IH]; cbn [app forallb]; [reflexivity|].
  intros H. apply andb_prop in H as [Hr Hpre].
  cbn [Processor.process_records]. unfold bind at 1, lift at 1.
  unfold lacks_s3 in Hr.
  destruct (contains "s3" r) as [[|]|]; try discriminate.
  now apply IH.
Qed.

(** X23: when the first record holding ['s3'] does not name a bucket and
    an object key as strings, the processor answers 500 and reads no object
    and no table, whatever the later records and the action are. *)
Theorem malformed_storage_record_is_500
  (w : world) (d : list (string * pyval)) (pre post : list pyval) (record : pyval) :
  assoc "Records" d = Some (PList (pre ++ record :: post)) ->
  forallb lacks_s3 pre = true ->
  contains "s3" record = Ok true ->
  s3_target record = None ->
  exists e,
    Processor.lambda_handler w (PDict d) init
    = (Ok (error_response e),
       {| log := [CPrint ("ERROR: " ++ exn_msg e)]; ticks := 0 |}).
Proof.
  intros HR Hpre Hc Ht.
  destruct (malformed_record_raises w record post init Hc Ht) as (e & He).
  exists e.
  unfold Processor.lambda_handler, try_except, Processor.handler_try.
  unfold bind at 1, lift at 1. cbn [contains]. rewrite HR.
  unfold bind at 1. unfold bind at 1, lift at 1. cbn [getitem]. rewrite HR.
  unfold bind at 1, lift at 1. cbn [iter].
  rewrite (process_records_skip w pre (record :: post) init Hpre), He.
  reflexivity.
Qed.

Lemma malformed_storage_record_is_500_witness :
  exists e,
    Processor.lambda_handler (Sample.world_of [] (Ok tt))
      (PDict [("Records", PList [PDict [("s3", PDict [("bucket", PDict [("name", PStr "raw")])])]])])
      init
    = (Ok (error_response e),
       {| log := [CPrint ("ERROR: " ++ exn_msg e)]; ticks := 0 |}).
Proof.
  apply (malformed_storage_record_is_500 (Sample.world_of [] (Ok tt))
           [("Records", PList [PDict [("s3", PDict [("bucket", PDict [("name", PStr "raw")])])]])]
           [] []
           (PDict [("s3", PDict [("bucket", PDict [("name", PStr "raw")])])]));
    reflexivity.
Defined.

End RecordFacts.

(** ** The sessions of a customer *)

Module CustomerFacts.
Import Py Aws Builtins Obs Shape ApiRoutes EncoderFacts ApiEffects.





End CustomerFacts.
